(** * Wallet lifecycle sagas of hathor-wallet: a shallow embedding

    The sagas of the wallet lifecycle module ([startWallet], [loadTokens],
    [fetchTokensMetadata], [listenForFeatureFlags], [listenForWalletReady],
    [handleTx], [setupWalletListeners], [bestBlockUpdate], [walletReloading])
    are generators that yield redux-saga effects.  Each one is embedded as a
    function computing the list of effects it yields, in order, together
    with the way it ends (returns, raises, or stays suspended), from the
    answers its collaborators give during the run. *)

From stdpp Require Import gmap strings list fin_maps.

#[local] Set Warnings "-clear-no-such-hyp".

(** ** JavaScript values *)

Module JS.

(** The values the sagas compare with [===] or test for truthiness.
    Objects are compared by reference, hence carry an allocation id. *)
Inductive value :=
| Undefined
| Null
| Bool (b : bool)
| Num (n : Z)
| Str (s : string)
| Obj (ref : nat).

#[global] Instance value_eq_dec : EqDecision value.
Proof. solve_decision. Defined.

(** [if (v)] *)
Definition truthy (v : value) : bool :=
  match v with
  | Undefined | Null => false
  | Bool b => b
  | Num n => negb (n =? 0)%Z
  | Str s => negb (String.eqb s "")
  | Obj _ => true
  end.

(** [a === b] and [a !== b] *)
Definition strict_eq (a b : value) : bool := bool_decide (a = b).
Definition strict_neq (a b : value) : bool := negb (strict_eq a b).

(** [a && b] as a condition: [a] is only looked past when truthy. *)
Definition and_cond (a : value) (b : bool) : bool :=
  if truthy a then b else false.

(** [Array.prototype.indexOf]: first position holding [x], or [-1]. *)
Fixpoint indexOf_from {A} `{EqDecision A} (i : Z) (x : A) (l : list A) : Z :=
  match l with
  | [] => (-1)%Z
  | y :: l' => if decide (y = x) then i else indexOf_from (i + 1)%Z x l'
  end.
Definition indexOf {A} `{EqDecision A} (l : list A) (x : A) : Z :=
  indexOf_from 0%Z x l.

(** A [Set] iterates in insertion order; [add] of a present element
    leaves it where it is. *)
Definition Set_add {A} `{EqDecision A} (s : list A) (x : A) : list A :=
  if decide (x ∈ s) then s else s ++ [x].

End JS.

(** ** Data model *)

Definition tokenId := string.

(** A registered token descriptor, as kept by [tokensUtils.getTokens()] and
    in [state.tokens]. *)
Record Token := { uid : tokenId; name : string; symbol : string }.

Record Address := { address : string; index : Z }.

Record ServerInfo := { version : JS.value; network : JS.value }.

(** One input or output of a transaction: only its token is read. *)
Record TxIO := { token : tokenId }.

Record Tx := { tx_id : string; inputs : list TxIO; outputs : list TxIO }.

(** The payload of a [START_WALLET_REQUESTED] action.  Of the router
    history the handlers only call [replace]: [routerHistory] is [Some tt]
    for a router history, on which the call returns, and [None] for
    anything on which it throws ([undefined], [null], a value without
    such a method). *)
Record StartPayload := {
  words : JS.value;
  passphrase : JS.value;
  pin : string;
  password : string;
  routerHistory : option unit;
  fromXpriv : bool;
  xpub : JS.value;
}.

(** The wallet facade as seen by one run of a handler: the answer each of
    its methods gives when the handler calls it.  [None] stands for a call
    that raises. *)
Record Wallet := {
  start : option (option ServerInfo);
  isReady : bool;
  getCurrentAddress : Address;
  getTokens : option (list tokenId);
  getNewAddresses : option unit;
}.

(** The slice of the redux state the sagas select from. *)
Record AppState := {
  state_wallet : Wallet;
  state_useWalletService : JS.value;
  state_tokens : list Token;
  state_height : JS.value;
  state_routerHistory : option unit;
}.

(** ** Actions and effects *)

(** Actions put on the store, named after their action creators (or after
    their type, for the object literals of the source). *)
Inductive action :=
| START_WALLET_REQUESTED (payload : StartPayload)
| loadingAddresses (b : bool)
| storeRouterHistory (h : option unit)
| reloadData (tokens : list Token)
| isOnlineUpdate (isOnline : bool)
| setUseWalletService (b : bool)
| dispatchGrabber
| setWallet (useWalletService : bool)
| setServerInfo (version : JS.value) (network : JS.value)
| startWalletFailed
| walletStateError
| walletStateReady
| reloadWalletRequested
| loadWalletSuccess (allTokens : list tokenId)
| metadataLoaded (b : bool)
| tokenMetadataUpdated (data : gmap string JS.value) (errors : list tokenId)
| TOKEN_FETCH_METADATA_REQUESTED (t : tokenId)
| TOKEN_FETCH_METADATA_SUCCESS (t : tokenId) (data : JS.value)
| TOKEN_FETCH_METADATA_FAILED (t : tokenId)
| tokenFetchBalanceRequested (t : tokenId) (force : option bool)
| tokenFetchHistoryRequested (t : tokenId) (force : option bool)
| tokenInvalidateHistory (t : tokenId)
| sharedAddressUpdate (lastSharedAddress : string) (lastSharedIndex : Z)
| walletRefreshSharedAddress
| updateLoadedData (transactions : nat) (addresses : JS.value)
| bridged (type : string) (payload : JS.value).

(** The sagas forked or spawned by another saga. *)
Inductive child :=
| setupWalletListeners_task
| listenForWalletReady_task
| listenForFeatureFlags_task
| fetchTokensMetadata_task (tokens : list tokenId).

(** Calls into collaborators. *)
Inductive extcall :=
| shouldUseWalletService_call
| ignoreWalletServiceFlag_call
| wallet_start_call (pinCode password : string)
| fetchTokenData_call (t : tokenId)
| wallet_getTokens_call
| wallet_getNewAddresses_call.

(** What the handlers wait for on the store. *)
Inductive pattern :=
| WALLET_STATE_READY
| WALLET_STATE_ERROR
| START_WALLET_REQUESTED_type
| RELOAD_WALLET_REQUESTED
| metadata_response (t : tokenId).

(** The effects a saga yields, and the plain side effects it performs
    between them, in program order.  [select] only reads and is left out. *)
Inductive effect :=
| Put (a : action)
| Call (c : extcall)
| Fork (c : child)
| Spawn (c : child)
| Cancel_threads                    (* [yield cancel(threads)] *)
| Cancel_self                       (* [yield cancel()] *)
| Channel_close                     (* [channel.close()] *)
| Take (p : pattern)
| Race (ps : list pattern)
| All (ps : list pattern)
| unlock
| cleanLoadedData (cleanAccessData : bool)
| new_wallet (useWalletService : bool)
| routerHistory_replace (path : string)
| sendNotification (message : string).

(** ** The saga monad: effects written so far, and how the run goes on *)

Inductive result (A : Type) :=
| Ret (a : A)      (* the computation went through with value [a] *)
| Throw            (* an exception is propagating *)
| Block.           (* suspended on an effect that never resumes *)
Arguments Ret {A} a.
Arguments Throw {A}.
Arguments Block {A}.

Definition saga (A : Type) : Type := (list effect * result A)%type.

#[global] Instance saga_ret : MRet saga := λ A a, ([], Ret a).

#[global] Instance saga_bind : MBind saga := λ A B f m,
  match m with
  | (t, Ret a) => let '(t', r) := f a in (t ++ t', r)
  | (t, Throw) => (t, Throw)
  | (t, Block) => (t, Block)
  end.

Definition yield (e : effect) : saga unit := ([e], Ret tt).
Definition put (a : action) : saga unit := yield (Put a).
Definition raise {A} : saga A := ([], Throw).
Definition suspend {A} : saga A := ([], Block).

(** [yield call(f)] where the callee answers [r]: [None] raises. *)
Definition call {A} (c : extcall) (r : option A) : saga A :=
  '_ ← yield (Call c); match r with Some a => mret a | None => raise end.

(** [take]/[race] answered by the store: [None] when no awaited action is
    ever dispatched. *)
Definition await {A} (e : effect) (r : option A) : saga A :=
  '_ ← yield e; match r with Some a => mret a | None => suspend end.

(** [try { body } catch (e) { handler }] *)
Definition try_catch {A} (body handler : saga A) : saga A :=
  match body with
  | (t, Throw) => let '(t', r) := handler in (t ++ t', r)
  | other => other
  end.

(** [for (const x of xs) { body x }] *)
Fixpoint for_of {A} (xs : list A) (body : A → saga unit) : saga unit :=
  match xs with
  | [] => mret tt
  | x :: xs' => body x ;; for_of xs' body
  end.

Definition trace {A} (m : saga A) : list effect := fst m.
Definition outcome {A} (m : saga A) : result A := snd m.

#[global] Instance Token_eq_dec : EqDecision Token.
Proof. solve_decision. Defined.
#[global] Instance StartPayload_eq_dec : EqDecision StartPayload.
Proof. solve_decision. Defined.
#[global] Instance action_eq_dec : EqDecision action.
Proof. solve_decision. Defined.
#[global] Instance child_eq_dec : EqDecision child.
Proof. solve_decision. Defined.
#[global] Instance extcall_eq_dec : EqDecision extcall.
Proof. solve_decision. Defined.
#[global] Instance pattern_eq_dec : EqDecision pattern.
Proof. solve_decision. Defined.
#[global] Instance effect_eq_dec : EqDecision effect.
Proof. solve_decision. Defined.

(** ** Event emitters, channels and listener tasks *)

Module EventEmitter.

(** A listener is a function object; two evaluations of the same arrow
    expression give two distinct objects, told apart by allocation id. *)
Definition closure := nat.

(** The registrations of one emitter, oldest first. *)
Definition t := list (string * closure).

Definition on (name : string) (f : closure) (em : t) : t := em ++ [(name, f)].

Fixpoint remove_first (r : string * closure) (l : t) : t :=
  match l with
  | [] => []
  | r' :: l' => if decide (r' = r) then l' else r' :: remove_first r l'
  end.

(** [removeListener] takes away the most recently added registration of
    this very function under this name, and nothing when there is none. *)
Definition removeListener (name : string) (f : closure) (em : t) : t :=
  reverse (remove_first (name, f) (reverse em)).

End EventEmitter.

(** The emitters the sagas subscribe to, and the allocation counter for
    function objects. *)
Record World := {
  wallet_listeners : EventEmitter.t;
  conn_listeners : EventEmitter.t;
  featureFlags_listeners : EventEmitter.t;
  next_closure : nat;
}.

(** Evaluating an arrow function expression. *)
Definition new_closure (w : World) : EventEmitter.closure * World :=
  (next_closure w,
   {| wallet_listeners := wallet_listeners w;
      conn_listeners := conn_listeners w;
      featureFlags_listeners := featureFlags_listeners w;
      next_closure := S (next_closure w) |}).

Definition on_wallet (f : EventEmitter.t → EventEmitter.t) (w : World) : World :=
  {| wallet_listeners := f (wallet_listeners w);
     conn_listeners := conn_listeners w;
     featureFlags_listeners := featureFlags_listeners w;
     next_closure := next_closure w |}.

Definition on_conn (f : EventEmitter.t → EventEmitter.t) (w : World) : World :=
  {| wallet_listeners := wallet_listeners w;
     conn_listeners := f (conn_listeners w);
     featureFlags_listeners := featureFlags_listeners w;
     next_closure := next_closure w |}.

Definition on_featureFlags (f : EventEmitter.t → EventEmitter.t) (w : World) : World :=
  {| wallet_listeners := wallet_listeners w;
     conn_listeners := conn_listeners w;
     featureFlags_listeners := f (featureFlags_listeners w);
     next_closure := next_closure w |}.

(** [emitter.on(name, (...) => ...)] with the arrow function written in
    place: a fresh function object is registered. *)
Definition on_fresh (target : (EventEmitter.t → EventEmitter.t) → World → World)
    (name : string) (w : World) : World :=
  let '(f, w) := new_closure w in target (EventEmitter.on name f) w.

Definition removeListener (target : (EventEmitter.t → EventEmitter.t) → World → World)
    (name : string) (f : EventEmitter.closure) (w : World) : World :=
  target (EventEmitter.removeListener name f) w.

(** redux-saga's [eventChannel]: [subscribe] runs at once and hands back the
    unsubscribe function, which [close] runs the first time it is called. *)
Record Channel := { unsubscribe : World → World; closed : bool }.

Definition eventChannel (subscribe : World → (World → World) * World)
    (w : World) : Channel * World :=
  let '(u, w) := subscribe w in ({| unsubscribe := u; closed := false |}, w).

Definition close (ch : Channel) (w : World) : Channel * World :=
  if closed ch then (ch, w)
  else ({| unsubscribe := unsubscribe ch; closed := true |}, unsubscribe ch w).

(** The subscribe function of [setupWalletListeners]. *)
Definition setupWalletListeners_subscribe (w : World) : (World → World) * World :=
  let '(listener, w) := new_closure w in
  let w := on_fresh on_conn "best-block-update" w in
  let w := on_fresh on_conn "wallet-load-partial-update" w in
  let w := on_fresh on_conn "state" w in
  let w := on_fresh on_wallet "reload-data" w in
  let w := on_fresh on_wallet "update-tx" w in
  let w := on_fresh on_wallet "new-tx" w in
  (λ w,
     let w := removeListener on_conn "best-block-update" listener w in
     let w := removeListener on_conn "wallet-load-partial-update" listener w in
     let w := removeListener on_conn "state" listener w in
     let w := removeListener on_wallet "reload-data" listener w in
     let w := removeListener on_wallet "update-tx" listener w in
     removeListener on_wallet "new-tx" listener w,
   w).

(** The subscribe function of [listenForWalletReady]. *)
Definition listenForWalletReady_subscribe (w : World) : (World → World) * World :=
  let '(listener, w) := new_closure w in
  let w := on_fresh on_wallet "state" w in
  (λ w, removeListener on_wallet "state" listener w, w).

(** The subscribe function of [listenForFeatureFlags];
    [WALLET_SERVICE_ENABLED] is the event name exported by the feature-flag
    module, whatever it is. *)
Definition listenForFeatureFlags_subscribe (WALLET_SERVICE_ENABLED : string)
    (w : World) : (World → World) * World :=
  let '(listener, w) := new_closure w in
  let w := on_fresh on_featureFlags WALLET_SERVICE_ENABLED w in
  (λ w, removeListener on_featureFlags "wallet-service-enabled" listener w, w).

(** A forked listener saga: its channel, and whether it is still running.
    Each of the three sagas opens its channel first and sits in
    [try { while (true) ... } finally { if (yield cancelled()) channel.close() }]. *)
Record Task := { channel : Channel; running : bool }.

Definition fork_listener (subscribe : World → (World → World) * World)
    (w : World) : Task * World :=
  let '(ch, w) := eventChannel subscribe w in
  ({| channel := ch; running := true |}, w).

(** Cancelling a running task runs its [finally] block with [cancelled()]
    true; a task that already ended is left alone. *)
Definition cancel_task (t : Task) (w : World) : Task * World :=
  if running t then
    let '(ch, w) := close (channel t) w in
    ({| channel := ch; running := false |}, w)
  else (t, w).

(** [yield cancel(threads)] *)
Fixpoint cancel (threads : list Task) (w : World) : list Task * World :=
  match threads with
  | [] => ([], w)
  | t :: ts =>
      let '(t, w) := cancel_task t w in
      let '(ts, w) := cancel ts w in
      (t :: ts, w)
  end.

(** The three forks of [startWallet], in order: the thread group. *)
Definition fork_threads (WALLET_SERVICE_ENABLED : string) (w : World)
    : list Task * World :=
  let '(walletListenerThread, w) := fork_listener setupWalletListeners_subscribe w in
  let '(walletReadyThread, w) := fork_listener listenForWalletReady_subscribe w in
  let '(featureFlagsThread, w) :=
    fork_listener (listenForFeatureFlags_subscribe WALLET_SERVICE_ENABLED) w in
  ([walletListenerThread; walletReadyThread; featureFlagsThread], w).

Definition empty_world : World :=
  {| wallet_listeners := []; conn_listeners := [];
     featureFlags_listeners := []; next_closure := 0 |}.

(** ** The feature-flag provider *)

(** Modelled from the spec: the [FeatureFlags] class of [../featureFlags] is
    not part of the sources at hand.  It keeps a persistent "ignore remote
    service" decision next to the remote flag; once the decision is
    recorded, the backend selection resolves to the local facade. *)
Record FeatureFlags := { ignoreFlag : bool; walletServiceEnabled : bool }.

Definition shouldUseWalletService (ff : FeatureFlags) : bool :=
  if ignoreFlag ff then false else walletServiceEnabled ff.

Definition ignoreWalletServiceFlag (ff : FeatureFlags) : FeatureFlags :=
  {| ignoreFlag := true; walletServiceEnabled := walletServiceEnabled ff |}.

(** Modelled from the spec: [specificTypeAndPayload] of [./helpers] is not
    part of the sources at hand.  With the two metadata response types and
    [{tokenId: token}] it accepts the success or failure response keyed by
    that token identifier. *)
Definition specificTypeAndPayload (token : tokenId) (a : action) : bool :=
  match a with
  | TOKEN_FETCH_METADATA_SUCCESS t _ => bool_decide (t = token)
  | TOKEN_FETCH_METADATA_FAILED t => bool_decide (t = token)
  | _ => false
  end.

(** ** The sagas *)

(** What one run of [startWallet] meets. *)
Record StartEnv := {
  isHardwareWallet : bool;              (* [oldWalletUtil.isHardwareWallet()] *)
  featureFlags : FeatureFlags;          (* the provider's persistent state *)
  stored_tokens : list Token;           (* [tokensUtils.getTokens()] *)
  network_name : JS.value;              (* [config.getNetwork().name] *)
  serviceWallet : Wallet;               (* [new HathorWalletServiceWallet(..)] *)
  localWallet : Wallet;                 (* [new HathorWallet(..)] *)
  fetchTokenData : option unit;         (* [fetchTokenData(htrUid)] *)
  readiness_race : option bool;         (* [Some true]: the error take won *)
  parked_race : option bool;            (* [Some true]: the reload take won *)
}.

(** What one run of [walletReloading] meets, besides the state. *)
Record ReloadEnv := {
  reload_stored_tokens : list Token;    (* [tokensUtils.getTokens()] *)
  reload_fetchTokenData : option unit;  (* [fetchTokenData(htrUid)] *)
  reload_ready : option unit;           (* [WALLET_STATE_READY] shows up *)
}.

Section Sagas.

(** Constants and helpers of the wallet library. *)
Variable htrUid : tokenId.              (* [HATHOR_TOKEN_CONFIG.uid] *)
Variable HathorWallet_ERROR : JS.value. (* [HathorWallet.ERROR] *)
Variable isBlock : Tx → bool.           (* [helpers.isBlock] *)

(** *** [loadTokens] *)

(** The [reduce] over the registered tokens. *)
Definition registered_uids (stored : list Token) : list tokenId :=
  foldl (λ acc token, if decide (uid token = htrUid) then acc
                      else acc ++ [uid token]) [] stored.

Definition loadTokens (fetch : option unit) (wallet : Wallet)
    (stored : list Token) : saga (list tokenId * list tokenId) :=
  call (fetchTokenData_call htrUid) fetch ;;
  allTokens ← call wallet_getTokens_call (getTokens wallet);
  let registeredTokens := registered_uids stored in
  yield (Spawn (fetchTokensMetadata_task registeredTokens)) ;;
  for_of allTokens (λ token, put (tokenFetchBalanceRequested token None)) ;;
  mret (allTokens, registeredTokens).

(** *** [fetchTokensMetadata] *)

(** [obj[key] = value] on a plain object, of which the map holds the own
    properties under ordinary keys.  The key ["__proto__"] names the
    prototype accessor instead: an assignment to it adds no such property
    and leaves the others as they are. *)
Definition set_property (key : string) (value : JS.value)
    (obj : gmap string JS.value) : gmap string JS.value :=
  if decide (key = "__proto__") then obj else <[key := value]> obj.

(** One turn of the loop over the responses. *)
Definition aggregate_step (acc : gmap string JS.value * list tokenId)
    (response : action) : gmap string JS.value * list tokenId :=
  let '(tokenMetadatas, errors) := acc in
  match response with
  | TOKEN_FETCH_METADATA_FAILED tokenId => (tokenMetadatas, errors ++ [tokenId])
  | TOKEN_FETCH_METADATA_SUCCESS tokenId data =>
      if JS.truthy data then (set_property tokenId data tokenMetadatas, errors)
      else (tokenMetadatas, errors)
  | _ => (tokenMetadatas, errors)
  end.

Definition aggregate (responses : list action)
    : gmap string JS.value * list tokenId :=
  foldl aggregate_step (∅, []) responses.

(** [all(tokens.map(token => take(..)))]: every take is answered by the
    first matching action among those dispatched from then on, and the
    whole effect resumes only when every take is answered. *)
Definition take_responses (tokens : list tokenId) (dispatched : list action)
    : option (list action) :=
  mapM (λ token, List.find (specificTypeAndPayload token) dispatched) tokens.

Definition fetchTokensMetadata (tokens : list tokenId)
    (dispatched : list action) : saga unit :=
  if decide (length tokens = 0) then put (metadataLoaded true)
  else
    put (metadataLoaded false) ;;
    for_of tokens (λ token, put (TOKEN_FETCH_METADATA_REQUESTED token)) ;;
    responses ← await (All (metadata_response <$> tokens))
                      (take_responses tokens dispatched);
    let '(tokenMetadatas, errors) := aggregate responses in
    put (tokenMetadataUpdated tokenMetadatas errors).

(** *** [listenForFeatureFlags] *)

(** The body of the loop, for the value taken from the channel and the
    value selected from the state. *)
Definition onFeatureFlag (newUseWalletService oldUseWalletService : JS.value)
    : saga unit :=
  if JS.and_cond oldUseWalletService
       (JS.strict_neq oldUseWalletService newUseWalletService)
  then put reloadWalletRequested
  else mret tt.

(** The loop over the changes the channel delivers, each paired with the
    state value at that moment; then the saga waits on the channel. *)
Definition listenForFeatureFlags (changes : list (JS.value * JS.value))
    : saga unit :=
  for_of changes (λ c, onFeatureFlag c.1 c.2) ;; suspend.

(** *** [listenForWalletReady] *)

(** The loop over the state events the channel delivers, each paired with
    what [wallet.isReady()] answers at that moment.  [yield cancel()]
    ends the saga through its [finally] block. *)
Fixpoint listenForWalletReady (events : list (JS.value * bool)) : saga unit :=
  match events with
  | [] => suspend
  | (message, ready) :: events' =>
      if JS.strict_eq message HathorWallet_ERROR then
        put walletStateError ;; yield Cancel_self ;; yield Channel_close
      else if ready then
        put walletStateReady ;; yield Cancel_self ;; yield Channel_close
      else listenForWalletReady events'
  end.

(** *** [handleTx] *)

Definition affectedTokens (tx : Tx) : list tokenId :=
  let s := foldl (λ s output, JS.Set_add s (token output)) [] (outputs tx) in
  foldl (λ s input, JS.Set_add s (token input)) s (inputs tx).

Definition handleTx (st : AppState) (tx : Tx) : saga unit :=
  let wallet := state_wallet st in
  if negb (isReady wallet) then mret tt
  else
    let affected := affectedTokens tx in
    let registeredTokens := uid <$> state_tokens st in
    let message :=
      if isBlock tx then "You've found a new block! Click to open it."
      else "You've received a new transaction! Click to open it." in
    yield (sendNotification message) ;;
    let newAddress := getCurrentAddress wallet in
    put (sharedAddressUpdate (address newAddress) (index newAddress)) ;;
    for_of affected (λ tokenUid,
      if decide (JS.indexOf registeredTokens tokenUid = (-1)%Z) then mret tt
      else
        put (tokenFetchBalanceRequested tokenUid (Some true)) ;;
        put (tokenFetchHistoryRequested tokenUid (Some true))).

(** *** [bestBlockUpdate] *)

Definition bestBlockUpdate (st : AppState) (payload : JS.value) : saga unit :=
  let currentHeight := state_height st in
  let wallet := state_wallet st in
  if negb (isReady wallet) then mret tt
  else if JS.strict_neq currentHeight payload then
    put (tokenFetchBalanceRequested htrUid None)
  else mret tt.

(** *** [walletReloading] *)

Definition walletReloading (env : ReloadEnv) (st : AppState) : saga unit :=
  put (loadingAddresses true) ;;
  let wallet := state_wallet st in
  let useWalletService := state_useWalletService st in
  let routerHistory := state_routerHistory st in
  (if negb (JS.truthy useWalletService) then
     yield (Fork listenForWalletReady_task) ;;
     await (Take WALLET_STATE_READY) (reload_ready env)
   else mret tt) ;;
  try_catch
    ('(allTokens, _) ← loadTokens (reload_fetchTokenData env) wallet
                          (reload_stored_tokens env);
     for_of allTokens (λ tokenUid,
       if decide (tokenUid = htrUid) then mret tt
       else put (tokenInvalidateHistory tokenUid)) ;;
     (if JS.truthy useWalletService then
        call wallet_getNewAddresses_call (getNewAddresses wallet)
      else mret tt) ;;
     put walletRefreshSharedAddress ;;
     put (loadWalletSuccess allTokens) ;;
     match routerHistory with
     | Some _ => yield (routerHistory_replace "/wallet/")
     | None => raise             (* [undefined.replace]: a TypeError *)
     end ;;
     put (loadingAddresses false))
    (put startWalletFailed).

(** *** [startWallet] *)

Definition startWallet (env : StartEnv) (payload : StartPayload) : saga unit :=
  let action := START_WALLET_REQUESTED payload in
  put (loadingAddresses true) ;;
  put (storeRouterHistory (routerHistory payload)) ;;
  yield unlock ;;
  put (reloadData (stored_tokens env)) ;;
  put (isOnlineUpdate false) ;;
  useWalletService ←
    (if isHardwareWallet env then mret false
     else call shouldUseWalletService_call
            (Some (shouldUseWalletService (featureFlags env))) : saga bool);
  put (setUseWalletService useWalletService) ;;
  put dispatchGrabber ;;
  yield (cleanLoadedData (negb (fromXpriv payload))) ;;
  let wallet := if (useWalletService : bool) then serviceWallet env
                else localWallet env in
  yield (new_wallet useWalletService) ;;
  put (setWallet useWalletService) ;;
  yield (Fork setupWalletListeners_task) ;;
  yield (Fork listenForWalletReady_task) ;;
  yield (Fork listenForFeatureFlags_task) ;;
  (* [going] is false once the generator has returned *)
  going ← try_catch
    (serverInfo ← call (wallet_start_call (pin payload) (password payload))
                       (start wallet);
     let '(version, networkName) :=
       match serverInfo with
       | Some info => (version info, network info)
       | None => (JS.Undefined, network_name env)
       end in
     put (setServerInfo version networkName) ;;
     mret true)
    (if useWalletService then
       call ignoreWalletServiceFlag_call (Some tt) ;;
       yield Cancel_threads ;;
       put action ;;
       mret false
     else mret true);
  if negb going then mret tt else
  match routerHistory payload with
  | Some _ => yield (routerHistory_replace "/loading_addresses")
  | None => raise               (* [undefined.replace]: a TypeError *)
  end ;;
  going ←
    (if negb (isReady wallet) then
       error ← await (Race [WALLET_STATE_READY; WALLET_STATE_ERROR])
                     (readiness_race env);
       if (error : bool) then
         put startWalletFailed ;; yield Cancel_threads ;; mret false
       else mret true
     else mret true);
  if negb going then mret tt else
  going ← try_catch
    ('(allTokens, _) ← loadTokens (fetchTokenData env) wallet
                          (stored_tokens env);
     put (loadWalletSuccess allTokens) ;;
     mret true)
    (put startWalletFailed ;; yield Cancel_threads ;; mret false);
  if negb going then mret tt else
  match routerHistory payload with
  | Some _ => yield (routerHistory_replace "/wallet/")
  | None => raise
  end ;;
  put (loadingAddresses false) ;;
  reload ← await (Race [START_WALLET_REQUESTED_type; RELOAD_WALLET_REQUESTED])
                 (parked_race env);
  yield Cancel_threads ;;
  if (reload : bool) then put action else mret tt.

End Sagas.

(** ** Reading traces *)

(** The actions a run puts on the store, in order. *)
Definition puts (t : list effect) : list action :=
  omap (λ e, match e with Put a => Some a | _ => None end) t.

Definition balance_requests (t : list effect) : list (tokenId * option bool) :=
  omap (λ a, match a with
             | tokenFetchBalanceRequested tok force => Some (tok, force)
             | _ => None
             end) (puts t).

Definition history_requests (t : list effect) : list (tokenId * option bool) :=
  omap (λ a, match a with
             | tokenFetchHistoryRequested tok force => Some (tok, force)
             | _ => None
             end) (puts t).

Definition invalidations (t : list effect) : list tokenId :=
  omap (λ a, match a with tokenInvalidateHistory tok => Some tok | _ => None end)
       (puts t).

(** The terminal status messages of the readiness watcher. *)
Definition status_messages (t : list effect) : list action :=
  filter (λ a, a = walletStateReady ∨ a = walletStateError) (puts t).

Definition reload_requests (t : list effect) : list action :=
  filter (λ a, a = reloadWalletRequested) (puts t).

(** A flag value counts as recorded when the state holds something. *)
Definition recorded (v : JS.value) : Prop := v ≠ JS.Undefined ∧ v ≠ JS.Null.

(** A state event wakes the readiness watcher for good when it is the error
    state or finds the facade ready. *)
Definition decisive (ERROR : JS.value) (ev : JS.value * bool) : Prop :=
  ev.1 = ERROR ∨ ev.2 = true.


(** The run of the readiness watcher that ends on the error state. *)
Definition ends_in_error : saga unit :=
  ([Put walletStateError; Cancel_self; Channel_close], Ret tt).

(** The run of the readiness watcher that ends on a ready facade. *)
Definition ends_ready : saga unit :=
  ([Put walletStateReady; Cancel_self; Channel_close], Ret tt).


(** The two forced refetch requests [handleTx] puts for one token. *)
Definition refetch (t : tokenId) : list action :=
  [tokenFetchBalanceRequested t (Some true);
   tokenFetchHistoryRequested t (Some true)].

(** The user notice [handleTx] sends. *)
Definition notice (isBlock : Tx → bool) (tx : Tx) : string :=
  if isBlock tx then "You've found a new block! Click to open it."
  else "You've received a new transaction! Click to open it.".


(** ** Reading metadata responses *)

(** The response the take for [token] resumes with. *)
Definition response_of (dispatched : list action) (token : tokenId)
    : option action :=
  List.find (specificTypeAndPayload token) dispatched.

(** The token's fetch failed. *)
Definition failed (dispatched : list action) (token : tokenId) : Prop :=
  response_of dispatched token = Some (TOKEN_FETCH_METADATA_FAILED token).


#[global] Instance failed_dec dispatched token : Decision (failed dispatched token).
Proof. unfold failed. apply _. Defined.



(** ** Reading listener registrations *)

(** Every registration of the world, whatever the emitter. *)
Definition registrations (w : World) : EventEmitter.t :=
  wallet_listeners w ++ conn_listeners w ++ featureFlags_listeners w.

(** The function object [x] is registered nowhere. *)
Definition absent (x : EventEmitter.closure) (w : World) : Prop :=
  ∀ name, (name, x) ∉ registrations w.

(** Registered function objects were all allocated before. *)
Definition allocated (w : World) : Prop :=
  ∀ r, r ∈ registrations w → r.2 < next_closure w.

(** One of the three emitters, as the part of the world it rewrites. *)
Class Target (T : (EventEmitter.t → EventEmitter.t) → World → World) := {
  view : World → EventEmitter.t;
  others : World → EventEmitter.t;
  target_next f w : next_closure (T f w) = next_closure w;
  target_before w r : r ∈ registrations w ↔ r ∈ view w ∨ r ∈ others w;
  target_after f w r : r ∈ registrations (T f w) ↔ r ∈ f (view w) ∨ r ∈ others w;
  target_same f w : f (view w) = view w → T f w = w;
}.

#[global, refine] Instance wallet_target : Target on_wallet :=
  {| view := wallet_listeners;
     others w := conn_listeners w ++ featureFlags_listeners w |}.
Proof.
  - done.
  - intros w r. unfold registrations. by rewrite elem_of_app.
  - intros f w r. unfold registrations. cbn. by rewrite elem_of_app.
  - intros f [] Hf. unfold on_wallet. cbn in *. by rewrite Hf.
Defined.

#[global, refine] Instance conn_target : Target on_conn :=
  {| view := conn_listeners;
     others w := wallet_listeners w ++ featureFlags_listeners w |}.
Proof.
  - done.
  - intros w r. unfold registrations. rewrite !elem_of_app. tauto.
  - intros f w r. unfold registrations. cbn. rewrite !elem_of_app. tauto.
  - intros f [] Hf. unfold on_conn. cbn in *. by rewrite Hf.
Defined.

#[global, refine] Instance featureFlags_target : Target on_featureFlags :=
  {| view := featureFlags_listeners;
     others w := wallet_listeners w ++ conn_listeners w |}.
Proof.
  - done.
  - intros w r. unfold registrations. rewrite !elem_of_app. tauto.
  - intros f w r. unfold registrations. cbn. rewrite !elem_of_app. tauto.
  - intros f [] Hf. unfold on_featureFlags. cbn in *. by rewrite Hf.
Defined.


(** ** Reading runs of [startWallet] and [walletReloading] *)

(** [m] run after the effects [t]. *)
Definition prefix {A} (t : list effect) (m : saga A) : saga A :=
  (t ++ trace m, outcome m).

(** The value [useWalletService] takes in [startWallet]. *)
Definition resolve (env : StartEnv) : bool :=
  if isHardwareWallet env then false
  else shouldUseWalletService (featureFlags env).

(** The facade [startWallet] builds and publishes. *)
Definition facade (env : StartEnv) : Wallet :=
  if resolve env then serviceWallet env else localWallet env.

(** The provider's state once the calls of a run have reached it. *)
Definition featureFlags_after (t : list effect) (ff : FeatureFlags) : FeatureFlags :=
  foldl (λ ff e, match e with
                 | Call ignoreWalletServiceFlag_call => ignoreWalletServiceFlag ff
                 | _ => ff
                 end) ff t.


(** The start call raised on the remote-service facade. *)
Definition falls_back (env : StartEnv) : Prop :=
  resolve env = true ∧ start (facade env) = None.

(** The facade was not ready and the error take won the race. *)
Definition readiness_error (env : StartEnv) : Prop :=
  isReady (facade env) = false ∧ readiness_race env = Some true.

(** The facade was ready already, or the ready take won the race. *)
Definition readiness_passed (env : StartEnv) : Prop :=
  isReady (facade env) = true ∨ readiness_race env = Some false.

(** One of the two calls of [loadTokens] raises. *)
Definition loader_raises (fetch : option unit) (wallet : Wallet) : Prop :=
  fetch = None ∨ getTokens wallet = None.

(** The reload is on the remote service, or the ready message shows up. *)
Definition reload_wait_passed (env : ReloadEnv) (st : AppState) : Prop :=
  JS.truthy (state_useWalletService st) = true ∨ reload_ready env = Some tt.

(** Something raises inside the [try] block of [walletReloading]. *)
Definition reload_fails (env : ReloadEnv) (st : AppState) : Prop :=
  loader_raises (reload_fetchTokenData env) (state_wallet st) ∨
  (JS.truthy (state_useWalletService st) = true ∧
   getNewAddresses (state_wallet st) = None) ∨
  state_routerHistory st = None.

(** A stretch of a run with no Failed status, no cancellation of the thread
    group, no lowering of the loading flag, no start request and no reload
    request. *)
Definition clean (t : list effect) : Prop :=
  (Put startWalletFailed ∉ t) ∧ (Cancel_threads ∉ t) ∧
  (Put (loadingAddresses false) ∉ t) ∧
  (∀ p, Put (START_WALLET_REQUESTED p) ∉ t) ∧
  Put reloadWalletRequested ∉ t.

(** A stretch of a run that leaves the loading flag alone. *)
Definition no_loading (t : list effect) : Prop :=
  ∀ b, Put (loadingAddresses b) ∉ t.

(** A stretch of a run that does not record the "ignore remote service"
    decision. *)
Definition no_ignore (t : list effect) : Prop :=
  Call ignoreWalletServiceFlag_call ∉ t.

Section Runs.

Variable htrUid : tokenId.

(** The effects of a [loadTokens] that returns [allTokens]. *)
Definition loaded (stored : list Token) (allTokens : list tokenId) : list effect :=
[Call (fetchTokenData_call htrUid); Call wallet_getTokens_call;
 Spawn (fetchTokensMetadata_task (registered_uids htrUid stored))]
++ (Put ∘ (λ t, tokenFetchBalanceRequested t None) <$> allTokens).

(** The effects of [startWallet] up to and including the start call. *)
Definition start_called (env : StartEnv) (payload : StartPayload) : list effect :=
[Put (loadingAddresses true); Put (storeRouterHistory (routerHistory payload));
 unlock; Put (reloadData (stored_tokens env)); Put (isOnlineUpdate false)]
++ (if isHardwareWallet env then [] else [Call shouldUseWalletService_call])
++ [Put (setUseWalletService (resolve env)); Put dispatchGrabber;
    cleanLoadedData (negb (fromXpriv payload)); new_wallet (resolve env);
    Put (setWallet (resolve env));
    Fork setupWalletListeners_task; Fork listenForWalletReady_task;
    Fork listenForFeatureFlags_task;
    Call (wallet_start_call (pin payload) (password payload))].

(** The fallback of [startWallet]. *)
Definition start_fallback (payload : StartPayload) : list effect :=
[Call ignoreWalletServiceFlag_call; Cancel_threads;
 Put (START_WALLET_REQUESTED payload)].

(** [startWallet] from the call of [loadTokens] on, for a payload with a
    router history. *)
Definition load_phase (env : StartEnv) (payload : StartPayload) : saga unit :=
match fetchTokenData env, getTokens (facade env) with
| None, _ =>
    ([Call (fetchTokenData_call htrUid);
      Put startWalletFailed; Cancel_threads], Ret tt)
| Some _, None =>
    ([Call (fetchTokenData_call htrUid); Call wallet_getTokens_call;
      Put startWalletFailed; Cancel_threads], Ret tt)
| Some _, Some allTokens =>
    prefix
      (loaded (stored_tokens env) allTokens
       ++ [Put (loadWalletSuccess allTokens); routerHistory_replace "/wallet/";
           Put (loadingAddresses false);
           Race [START_WALLET_REQUESTED_type; RELOAD_WALLET_REQUESTED]])
      match parked_race env with
      | None => ([], Block)
      | Some reload =>
          (Cancel_threads
           :: (if reload then [Put (START_WALLET_REQUESTED payload)] else []),
           Ret tt)
      end
end.

(** [startWallet] from the redirect to the loading screen on, for a
    payload with a router history. *)
Definition ready_phase (env : StartEnv) (payload : StartPayload) : saga unit :=
prefix [routerHistory_replace "/loading_addresses"]
  (if isReady (facade env) then load_phase env payload
   else
     prefix [Race [WALLET_STATE_READY; WALLET_STATE_ERROR]]
       match readiness_race env with
       | None => ([], Block)
       | Some true => ([Put startWalletFailed; Cancel_threads], Ret tt)
       | Some false => load_phase env payload
       end).

(** [startWallet] from the answer of the start call on, for a payload
    with a router history. *)
Definition start_phase (env : StartEnv) (payload : StartPayload) : saga unit :=
match start (facade env) with
| None =>
    if resolve env then (start_fallback payload, Ret tt)
    else ready_phase env payload
| Some serverInfo =>
    prefix [Put (match serverInfo with
                 | Some info => setServerInfo (version info) (network info)
                 | None => setServerInfo JS.Undefined (network_name env)
                 end)]
           (ready_phase env payload)
end.

(** [startWallet] from the answer of the start call on, for a payload
    without router history: unless the attempt falls back, the redirect to
    the loading screen throws. *)
Definition unrouted_phase (env : StartEnv) (payload : StartPayload) : saga unit :=
match start (facade env) with
| None =>
    if resolve env then (start_fallback payload, Ret tt) else ([], Throw)
| Some serverInfo =>
    ([Put (match serverInfo with
           | Some info => setServerInfo (version info) (network info)
           | None => setServerInfo JS.Undefined (network_name env)
           end)], Throw)
end.

(** [startWallet] from the answer of the start call on. *)
Definition start_tail (env : StartEnv) (payload : StartPayload) : saga unit :=
match routerHistory payload with
| Some _ => start_phase env payload
| None => unrouted_phase env payload
end.

(** The effects of [walletReloading] up to the end of its wait. *)
Definition reload_waited (useWalletService : bool) : list effect :=
Put (loadingAddresses true)
:: (if useWalletService then []
    else [Fork listenForWalletReady_task; Take WALLET_STATE_READY]).

(** The effects of [walletReloading] up to the end of the invalidation loop. *)
Definition reload_invalidated (stored : list Token) (allTokens : list tokenId)
  (useWalletService : bool) : list effect :=
reload_waited useWalletService ++ loaded stored allTokens
++ (Put ∘ tokenInvalidateHistory <$> filter (λ t, t ≠ htrUid) allTokens).

(** The effects of [walletReloading] from the address refresh to the
  load-success status. *)
Definition reload_refreshed (allTokens : list tokenId)
  (useWalletService : bool) : list effect :=
(if useWalletService then [Call wallet_getNewAddresses_call] else [])
++ [Put walletRefreshSharedAddress; Put (loadWalletSuccess allTokens)].

End Runs.

(** ** Sample inputs *)

(** The identifier of the base-currency token in the wallet library. *)
Definition HTR : tokenId := "00".

Definition sample_address : Address :=
  {| address := "WPhehTyNHTPz954CskfuSgLEfuKXbXeK3f"; index := 4 |}.

(** A facade whose start call raises, which is ready, and which knows the
    base-currency token and a token ["X"]. *)
Definition failing_wallet : Wallet :=
  {| start := None; isReady := true; getCurrentAddress := sample_address;
     getTokens := Some [HTR; "X"]; getNewAddresses := Some tt |}.

(** A facade that starts, becomes ready later, and whose token query
    raises. *)
Definition tokenless_wallet : Wallet :=
  {| start := Some None; isReady := false; getCurrentAddress := sample_address;
     getTokens := None; getNewAddresses := Some tt |}.

Definition sample_payload : StartPayload :=
  {| words := JS.Str "abandon ability able"; passphrase := JS.Str "";
     pin := "123456"; password := "secret"; routerHistory := Some tt;
     fromXpriv := false; xpub := JS.Undefined |}.

(** The same request without router history. *)
Definition unrouted_payload : StartPayload :=
  {| words := JS.Str "abandon ability able"; passphrase := JS.Str "";
     pin := "123456"; password := "secret"; routerHistory := None;
     fromXpriv := false; xpub := JS.Undefined |}.

Definition token_X : Token := {| uid := "X"; name := "Token X"; symbol := "TKX" |}.

(** A software wallet with the remote service enabled and a start call
    that raises on either facade. *)
Definition remote_env : StartEnv :=
  {| isHardwareWallet := false;
     featureFlags := {| ignoreFlag := false; walletServiceEnabled := true |};
     stored_tokens := [token_X]; network_name := JS.Str "mainnet";
     serviceWallet := failing_wallet; localWallet := failing_wallet;
     fetchTokenData := Some tt; readiness_race := Some false;
     parked_race := None |}.

(** The same wallet once the "ignore remote service" decision is recorded. *)
Definition local_env : StartEnv :=
  {| isHardwareWallet := false;
     featureFlags := {| ignoreFlag := true; walletServiceEnabled := true |};
     stored_tokens := [token_X]; network_name := JS.Str "mainnet";
     serviceWallet := failing_wallet; localWallet := failing_wallet;
     fetchTokenData := Some tt; readiness_race := Some false;
     parked_race := None |}.

(** A local start whose readiness wait ends on the error message. *)
Definition erroring_env : StartEnv :=
  {| isHardwareWallet := true;
     featureFlags := {| ignoreFlag := false; walletServiceEnabled := false |};
     stored_tokens := [token_X]; network_name := JS.Str "mainnet";
     serviceWallet := tokenless_wallet; localWallet := tokenless_wallet;
     fetchTokenData := Some tt; readiness_race := Some true;
     parked_race := None |}.

(** A state on the remote service with a ready facade, ["X"] registered,
    and height 10. *)
Definition sample_state : AppState :=
  {| state_wallet := failing_wallet; state_useWalletService := JS.Bool true;
     state_tokens := [token_X]; state_height := JS.Num 10;
     state_routerHistory := Some tt |}.

(** A state on the remote service whose facade cannot list its tokens. *)
Definition tokenless_state : AppState :=
  {| state_wallet := tokenless_wallet; state_useWalletService := JS.Bool true;
     state_tokens := [token_X]; state_height := JS.Num 10;
     state_routerHistory := Some tt |}.

Definition sample_reload : ReloadEnv :=
  {| reload_stored_tokens := [token_X]; reload_fetchTokenData := Some tt;
     reload_ready := Some tt |}.

(** A transaction moving the base-currency token and ["X"]. *)
Definition sample_tx : Tx :=
  {| tx_id := "0001"; inputs := [{| token := HTR |}; {| token := "X" |}];
     outputs := [{| token := "X" |}; {| token := HTR |}] |}.

(** A world in which the wallet already carries one listener. *)
Definition sample_world : World :=
  {| wallet_listeners := [("state", 0)]; conn_listeners := [];
     featureFlags_listeners := []; next_closure := 1 |}.

(** Responses for tokens A, B, C: A succeeds with data, B succeeds with
    nothing, C fails. *)
Definition sample_responses : list action :=
  [TOKEN_FETCH_METADATA_FAILED "C";
   TOKEN_FETCH_METADATA_SUCCESS "B" JS.Null;
   TOKEN_FETCH_METADATA_SUCCESS "A" (JS.Obj 7)].


(** ** The remaining sagas *)

Section MoreSagas.

Variable Connection_CONNECTED : JS.value.   (* [Connection.CONNECTED] *)

(** *** [onWalletConnStateUpdate] *)

Definition onWalletConnStateUpdate (payload : JS.value) : saga unit :=
  let isOnline := JS.strict_eq payload Connection_CONNECTED in
  put (isOnlineUpdate isOnline).

(** *** [refreshSharedAddress] *)

Definition refreshSharedAddress (st : AppState) : saga unit :=
  let wallet := state_wallet st in
  let current := getCurrentAddress wallet in
  put (sharedAddressUpdate (address current) (index current)).

End MoreSagas.

(** *** [setupWalletListeners] *)

(** The events [setupWalletListeners] subscribes to, each with the argument
    its emitter passes to the callback. *)
Inductive facade_event :=
| conn_best_block_update (blockHeight : JS.value)
| conn_wallet_load_partial_update (data : JS.value)
| conn_state (state : JS.value)
| wallet_reload_data
| wallet_update_tx (data : JS.value)
| wallet_new_tx (data : JS.value).

(** What a callback hands to the channel: [{type, data}]. *)
Record message := { message_type : string; message_data : JS.value }.

(** The six callbacks of the subscribe function; the message for
    ['reload-data'] has no [data] field. *)
Definition emitted (ev : facade_event) : message :=
  match ev with
  | conn_best_block_update blockHeight =>
      {| message_type := "WALLET_BEST_BLOCK_UPDATE"; message_data := blockHeight |}
  | conn_wallet_load_partial_update data =>
      {| message_type := "WALLET_PARTIAL_UPDATE"; message_data := data |}
  | conn_state state =>
      {| message_type := "WALLET_CONN_STATE_UPDATE"; message_data := state |}
  | wallet_reload_data =>
      {| message_type := "WALLET_RELOAD_DATA"; message_data := JS.Undefined |}
  | wallet_update_tx data =>
      {| message_type := "WALLET_UPDATE_TX"; message_data := data |}
  | wallet_new_tx data =>
      {| message_type := "WALLET_NEW_TX"; message_data := data |}
  end.

(** The loop over the messages the channel delivers; then the saga waits
    on the channel. *)
Definition setupWalletListeners (messages : list message) : saga unit :=
  for_of messages (λ message,
    put (bridged (message_type message) (message_data message))) ;;
  suspend.

(** *** The root [saga] *)

Inductive handler :=
| startWallet_handler
| onWalletConnStateUpdate_handler
| walletReloading_handler
| handleTx_handler
| bestBlockUpdate_handler
| loadPartialUpdate_handler
| refreshSharedAddress_handler.

Inductive watcher := takeLatest | takeEvery.

#[global] Instance handler_eq_dec : EqDecision handler.
Proof. solve_decision. Defined.
#[global] Instance watcher_eq_dec : EqDecision watcher.
Proof. solve_decision. Defined.
#[global] Instance facade_event_eq_dec : EqDecision facade_event.
Proof. solve_decision. Defined.

(** The watchers the root saga runs, in the order of its [all];
    [START_WALLET_REQUESTED] is the type exported by the actions module,
    whatever it is, and its handler is [startWallet] under [errorHandler]. *)
Definition root_saga (START_WALLET_REQUESTED : string)
    : list (watcher * string * handler) :=
  [(takeLatest, START_WALLET_REQUESTED, startWallet_handler);
   (takeLatest, "WALLET_CONN_STATE_UPDATE", onWalletConnStateUpdate_handler);
   (takeLatest, "WALLET_RELOADING", walletReloading_handler);
   (takeEvery, "WALLET_NEW_TX", handleTx_handler);
   (takeEvery, "WALLET_UPDATE_TX", handleTx_handler);
   (takeEvery, "WALLET_BEST_BLOCK_UPDATE", bestBlockUpdate_handler);
   (takeEvery, "WALLET_PARTIAL_UPDATE", loadPartialUpdate_handler);
   (takeEvery, "WALLET_RELOAD_DATA", walletReloading_handler);
   (takeEvery, "WALLET_REFRESH_SHARED_ADDRESS", refreshSharedAddress_handler)].

(** The watchers an action of the given type wakes. *)
Definition woken (START_WALLET_REQUESTED type : string)
    : list (watcher * handler) :=
  omap (λ '(w, pattern, h), if decide (pattern = type) then Some (w, h) else None)
       (root_saga START_WALLET_REQUESTED).

(** ** Counting effects *)

(** How many effects of a run satisfy [p]. *)
Fixpoint tally (p : effect → bool) (t : list effect) : nat :=
  match t with
  | [] => 0
  | e :: t' => (if p e then 1 else 0) + tally p t'
  end.

Definition is_cancel (e : effect) : bool :=
  match e with Cancel_threads => true | _ => false end.
Definition is_failed (e : effect) : bool :=
  match e with Put startWalletFailed => true | _ => false end.
Definition is_success (e : effect) : bool :=
  match e with Put (loadWalletSuccess _) => true | _ => false end.
Definition is_restart (e : effect) : bool :=
  match e with Put (START_WALLET_REQUESTED _) => true | _ => false end.
Definition is_fork (e : effect) : bool :=
  match e with Fork _ => true | _ => false end.
Definition is_spawn (e : effect) : bool :=
  match e with Spawn _ => true | _ => false end.
Definition is_start_call (e : effect) : bool :=
  match e with Call (wallet_start_call _ _) => true | _ => false end.
Definition is_server_info (e : effect) : bool :=
  match e with Put (setServerInfo _ _) => true | _ => false end.
Definition is_wallet_setup (e : effect) : bool :=
  match e with cleanLoadedData _ | new_wallet _ => true | _ => false end.

(** ** The ways a start attempt ends *)

Inductive ending :=
| Fell_back          (* the remote start raised: fallback and return *)
| Waiting_ready      (* suspended in the readiness race *)
| Failed_ready       (* the error take won the readiness race *)
| Failed_load        (* [loadTokens] raised *)
| Parked             (* loaded, suspended in the final race *)
| Superseded         (* loaded, then a new start request *)
| Reloaded.          (* loaded, then a reload request *)

#[global] Instance ending_eq_dec : EqDecision ending.
Proof. solve_decision. Defined.

Definition ending_after_ready (env : StartEnv) : ending :=
  match fetchTokenData env, getTokens (facade env) with
  | Some _, Some _ =>
      match parked_race env with
      | None => Parked
      | Some false => Superseded
      | Some true => Reloaded
      end
  | _, _ => Failed_load
  end.

Definition ending_after_start (env : StartEnv) : ending :=
  if isReady (facade env) then ending_after_ready env
  else match readiness_race env with
       | None => Waiting_ready
       | Some true => Failed_ready
       | Some false => ending_after_ready env
       end.

Definition ending_of (env : StartEnv) : ending :=
  match start (facade env) with
  | None => if resolve env then Fell_back else ending_after_start env
  | Some _ => ending_after_start env
  end.

(** The ways a reload cycle ends. *)
Inductive reload_ending :=
| Reload_waiting     (* suspended on the ready message *)
| Reload_failed_load (* [loadTokens] raised *)
| Reload_failed_refresh  (* [getNewAddresses] raised *)
| Reload_failed_redirect (* no router history to redirect with *)
| Reload_done.

#[global] Instance reload_ending_eq_dec : EqDecision reload_ending.
Proof. solve_decision. Defined.

Definition reload_ending_of (env : ReloadEnv) (st : AppState) : reload_ending :=
  let uws := JS.truthy (state_useWalletService st) in
  if negb uws && bool_decide (reload_ready env = None) then Reload_waiting
  else
    match reload_fetchTokenData env, getTokens (state_wallet st) with
    | Some _, Some _ =>
        if uws && bool_decide (getNewAddresses (state_wallet st) = None)
        then Reload_failed_refresh
        else match state_routerHistory st with
             | None => Reload_failed_redirect
             | Some _ => Reload_done
             end
    | _, _ => Reload_failed_load
    end.

(** A facade that starts with server information, is ready, and lists the
    base-currency token, ["X"] and ["Y"]. *)
Definition ready_wallet : Wallet :=
  {| start := Some (Some {| version := JS.Str "0.40.1"; network := JS.Str "testnet" |});
     isReady := true; getCurrentAddress := sample_address;
     getTokens := Some [HTR; "X"; "Y"]; getNewAddresses := None |}.

(** A hardware wallet whose start succeeds and which is then reloaded. *)
Definition hardware_env : StartEnv :=
  {| isHardwareWallet := true;
     featureFlags := {| ignoreFlag := false; walletServiceEnabled := true |};
     stored_tokens := [token_X; {| uid := HTR; name := "Hathor"; symbol := "HTR" |}];
     network_name := JS.Str "mainnet";
     serviceWallet := failing_wallet; localWallet := ready_wallet;
     fetchTokenData := Some tt; readiness_race := None;
     parked_race := Some true |}.

(** A state on the remote service that holds no router history. *)
Definition unrouted_state : AppState :=
  {| state_wallet := failing_wallet; state_useWalletService := JS.Bool true;
     state_tokens := [token_X]; state_height := JS.Num 10;
     state_routerHistory := None |}.

(** The numbers of Failed statuses, of load-success statuses, of
    cancellations of the thread group and of re-dispatched start requests
    in a run, and the way the run ends. *)
Definition totals (t : list effect) : nat * nat * nat * nat :=
  (tally is_failed t, tally is_success t, tally is_cancel t, tally is_restart t).

Definition summary (m : saga unit) : nat * nat * nat * nat * result unit :=
  (totals (trace m), outcome m).

(** The summary that goes with each ending of a start attempt. *)
Definition start_summary (e : ending) : nat * nat * nat * nat * result unit :=
  match e with
  | Fell_back => (0, 0, 1, 1, Ret tt)
  | Waiting_ready => (0, 0, 0, 0, Block)
  | Failed_ready | Failed_load => (1, 0, 1, 0, Ret tt)
  | Parked => (0, 1, 0, 0, Block)
  | Superseded => (0, 1, 1, 0, Ret tt)
  | Reloaded => (0, 1, 1, 1, Ret tt)
  end.

(** The summary of a start attempt: the one of its ending when the
    payload carries a router history or the attempt falls back; otherwise
    the first redirect throws with nothing counted yet. *)
Definition attempt_summary (env : StartEnv) (payload : StartPayload)
    : nat * nat * nat * nat * result unit :=
  match routerHistory payload with
  | Some _ => start_summary (ending_of env)
  | None =>
      if decide (ending_of env = Fell_back) then start_summary Fell_back
      else (0, 0, 0, 0, Throw)
  end.

(** The summary that goes with each ending of a reload cycle. *)
Definition reload_summary (e : reload_ending) : nat * nat * nat * nat * result unit :=
  match e with
  | Reload_waiting => (0, 0, 0, 0, Block)
  | Reload_failed_load | Reload_failed_refresh => (1, 0, 0, 0, Ret tt)
  | Reload_failed_redirect => (1, 1, 0, 0, Ret tt)
  | Reload_done => (0, 1, 0, 0, Ret tt)
  end.

(** The effects [startWallet] can yield once its start call has answered. *)
Definition after_start_call (e : effect) : bool :=
  match e with
  | Put (setServerInfo _ _) | Put startWalletFailed
  | Put (START_WALLET_REQUESTED _) | Put (tokenFetchBalanceRequested _ _)
  | Put (loadWalletSuccess _) | Put (loadingAddresses false) => true
  | Call ignoreWalletServiceFlag_call | Call (fetchTokenData_call _)
  | Call wallet_getTokens_call => true
  | Spawn _ | Cancel_threads | Race _ | routerHistory_replace _ => true
  | _ => false
  end.

Definition is_flag_query (e : effect) : bool :=
  match e with Call shouldUseWalletService_call => true | _ => false end.


(** ** Reading metadata runs *)

(** The token ids of the failure responses, in order. *)
Definition failed_ids (responses : list action) : list tokenId :=
  omap (λ r, match r with
             | TOKEN_FETCH_METADATA_FAILED t => Some t
             | _ => None
             end) responses.

(** The non-empty data of the success responses for [token], in order. *)
Definition data_for (token : tokenId) (responses : list action) : list JS.value :=
  omap (λ r, match r with
             | TOKEN_FETCH_METADATA_SUCCESS t data =>
                 if decide (t = token) then
                   if JS.truthy data then Some data else None
                 else None
             | _ => None
             end) responses.

(** The tokens whose metadata a run asks for, in order. *)
Definition metadata_requests (t : list effect) : list tokenId :=
  omap (λ a, match a with
             | TOKEN_FETCH_METADATA_REQUESTED t => Some t
             | _ => None
             end) (puts t).


(** ** Reading the remaining runs *)

(** The action the event bridge puts for an event. *)
Definition bridge (ev : facade_event) : action :=
  bridged (message_type (emitted ev)) (message_data (emitted ev)).

(** The patterns the root saga writes out as string literals. *)
Definition literal_patterns : list string :=
  ["WALLET_CONN_STATE_UPDATE"; "WALLET_RELOADING"; "WALLET_NEW_TX";
   "WALLET_UPDATE_TX"; "WALLET_BEST_BLOCK_UPDATE"; "WALLET_PARTIAL_UPDATE";
   "WALLET_RELOAD_DATA"; "WALLET_REFRESH_SHARED_ADDRESS"].

(** The handler the root saga runs for each event of the bridge. *)
Definition handler_of (ev : facade_event) : watcher * handler :=
  match ev with
  | conn_best_block_update _ => (takeEvery, bestBlockUpdate_handler)
  | conn_wallet_load_partial_update _ => (takeEvery, loadPartialUpdate_handler)
  | conn_state _ => (takeLatest, onWalletConnStateUpdate_handler)
  | wallet_reload_data => (takeEvery, walletReloading_handler)
  | wallet_update_tx _ | wallet_new_tx _ => (takeEvery, handleTx_handler)
  end.

(** The payloads of the connection updates a run puts, in order. *)
Definition online_updates (t : list effect) : list bool :=
  omap (λ a, match a with isOnlineUpdate b => Some b | _ => None end) (puts t).

Definition is_online_update (e : effect) : bool :=
  match e with Put (isOnlineUpdate _) => true | _ => false end.

(** The elements of a list, each at its first occurrence. *)
Definition first_occurrences {A} `{EqDecision A} (l : list A) : list A :=
  reverse (remove_dups (reverse l)).


(** * Properties *)

(** ** The saga monad *)

Lemma bind_Ret {A B} (t : list effect) (a : A) (f : A → saga B) :
  (t, Ret a) ≫= f = (t ++ trace (f a), outcome (f a)).
Proof. unfold mbind, saga_bind, trace, outcome. by destruct (f a). Qed.

Lemma for_of_total {A} (xs : list A) (body : A → saga unit) :
  (∀ x, outcome (body x) = Ret tt) →
  for_of xs body = (flat_map (λ x, trace (body x)) xs, Ret tt).
Proof.
  intros Hbody. induction xs as [|x xs IH]; [done|].
  cbn [for_of flat_map]. specialize (Hbody x).
  destruct (body x) as [t r]. cbn in Hbody |- *. subst r. by rewrite IH.
Qed.

Lemma for_of_put {A} (xs : list A) (f : A → action) :
  for_of xs (λ x, put (f x)) = (Put ∘ f <$> xs, Ret tt).
Proof.
  rewrite for_of_total by done. reflexivity.
Qed.

(** Membership in a trace assembled from explicit pieces. *)
Ltac in_trace :=
  intros; unfold trace, outcome; cbn [fst snd];
  repeat match goal with H : _ ∈ _ |- _ => revert H end;
  repeat first [ rewrite elem_of_app | rewrite elem_of_cons
               | rewrite list_elem_of_fmap | rewrite elem_of_nil ];
  naive_solver.

Lemma puts_app (t1 t2 : list effect) : puts (t1 ++ t2) = puts t1 ++ puts t2.
Proof. apply omap_app. Qed.

Section Watchers.

Variable HathorWallet_ERROR : JS.value.

Lemma strict_eq_true (a b : JS.value) : JS.strict_eq a b = true ↔ a = b.
Proof. unfold JS.strict_eq. by rewrite bool_decide_eq_true. Qed.

Lemma strict_neq_true (a b : JS.value) : JS.strict_neq a b = true ↔ a ≠ b.
Proof.
  unfold JS.strict_neq, JS.strict_eq.
  by rewrite negb_true_iff, bool_decide_eq_false.
Qed.

Lemma truthy_recorded (v : JS.value) : JS.truthy v = true → recorded v.
Proof. by destruct v; split. Qed.

Lemma onFeatureFlag_run (new old : JS.value) :
  onFeatureFlag new old =
    (if bool_decide (JS.truthy old = true ∧ old ≠ new)
     then [Put reloadWalletRequested] else [], Ret tt).
Proof.
  unfold onFeatureFlag, JS.and_cond.
  destruct (JS.truthy old) eqn:Ht.
  - destruct (JS.strict_neq old new) eqn:Hne.
    + apply strict_neq_true in Hne. by rewrite bool_decide_eq_true_2.
    + rewrite bool_decide_eq_false_2; [done|].
      intros [_ Hd]. apply strict_neq_true in Hd. congruence.
  - rewrite bool_decide_eq_false_2; [done|]. by intros [? _].
Qed.

(** C6. On every change delivered to the feature-flag watcher, a reload
    request is put exactly when the state holds a recorded, truthy flag
    value that differs from the new one, and then exactly once; over a
    whole sequence of changes there is one request per such change.  With
    nothing recorded no request is put, and a change from [true] to
    [false] puts exactly one. *)
Theorem C6_feature_flag_reload :
  (∀ new old,
     reload_requests (trace (onFeatureFlag new old)) = [reloadWalletRequested]
     ↔ recorded old ∧ JS.truthy old = true ∧ old ≠ new) ∧
  (∀ new old,
     trace (onFeatureFlag new old) = [Put reloadWalletRequested] ∨
     trace (onFeatureFlag new old) = []) ∧
  (∀ changes,
     length (reload_requests (trace (listenForFeatureFlags changes))) =
     length (filter (λ c, JS.truthy c.2 = true ∧ c.2 ≠ c.1) changes)) ∧
  (∀ new, trace (onFeatureFlag new JS.Undefined) = [] ∧
          trace (onFeatureFlag new JS.Null) = []) ∧
  trace (onFeatureFlag (JS.Bool false) (JS.Bool true))
    = [Put reloadWalletRequested].
Proof.
  split_and!.
  - intros new old. rewrite onFeatureFlag_run. cbn [trace fst].
    case_bool_decide as Hc.
    + split; [|done]. intros _. destruct Hc as [Ht Hd].
      by split; [apply truthy_recorded|].
    + split; [done|]. intros (_ & Ht & Hd). by destruct Hc.
  - intros new old. rewrite onFeatureFlag_run. cbn [trace fst].
    case_bool_decide; [by left|by right].
  - intros changes. unfold listenForFeatureFlags.
    rewrite for_of_total by (intros x; by rewrite onFeatureFlag_run).
    cbn [mbind saga_bind suspend trace fst]. rewrite app_nil_r.
    induction changes as [|[new old] cs IH]; [done|].
    cbn [flat_map]. unfold reload_requests in *.
    rewrite puts_app, filter_app, length_app, IH, filter_cons.
    rewrite onFeatureFlag_run. cbn [trace fst snd].
    case_bool_decide as Hc.
    + rewrite decide_True by done. done.
    + rewrite decide_False by done. done.
  - intros new. by rewrite !onFeatureFlag_run.
  - done.
Qed.

Lemma listenForWalletReady_skip (pre rest : list (JS.value * bool)) :
  Forall (λ ev, ¬ decisive HathorWallet_ERROR ev) pre →
  listenForWalletReady HathorWallet_ERROR (pre ++ rest)
  = listenForWalletReady HathorWallet_ERROR rest.
Proof.
  induction 1 as [|[message ready] pre Hev _ IH]; [done|].
  cbn [app listenForWalletReady]. unfold decisive in Hev. cbn in Hev.
  destruct (JS.strict_eq message HathorWallet_ERROR) eqn:He.
  { apply strict_eq_true in He. tauto. }
  destruct ready; [tauto|]. apply IH.
Qed.

Lemma listenForWalletReady_cases (events : list (JS.value * bool)) :
  (Forall (λ ev, ¬ decisive HathorWallet_ERROR ev) events ∧
   listenForWalletReady HathorWallet_ERROR events = ([], Block)) ∨
  (∃ pre message ready post,
     events = pre ++ (message, ready) :: post ∧
     Forall (λ ev, ¬ decisive HathorWallet_ERROR ev) pre ∧
     ((message = HathorWallet_ERROR ∧
       listenForWalletReady HathorWallet_ERROR events = ends_in_error) ∨
      (message ≠ HathorWallet_ERROR ∧ ready = true ∧
       listenForWalletReady HathorWallet_ERROR events = ends_ready))).
Proof.
  induction events as [|[message ready] events IH].
  { left. by split. }
  cbn [listenForWalletReady].
  destruct (JS.strict_eq message HathorWallet_ERROR) eqn:He.
  { right. exists [], message, ready, events. apply strict_eq_true in He.
    split_and!; [done|constructor|]. by left. }
  assert (message ≠ HathorWallet_ERROR) as Hne.
  { intros ->. unfold JS.strict_eq in He. by rewrite bool_decide_eq_true_2 in He. }
  destruct ready.
  { right. exists [], message, true, events.
    split_and!; [done|constructor|]. by right. }
  assert (¬ decisive HathorWallet_ERROR (message, false)) as Hnd.
  { unfold decisive. cbn. intros [?|?]; done. }
  destruct IH as [[Hall Hrun]|(pre & m & r & post & -> & Hpre & Hrun)].
  - left. split; [by constructor|done].
  - right. exists ((message, false) :: pre), m, r, post.
    split_and!; [done|by constructor|done].
Qed.

(** C4. Whatever state events the readiness watcher observes, it puts at
    most one terminal status message, never both a ready and an error
    one, and ends right after putting it, consuming no later event.  It
    ends on the first event that is the error state or finds
    [wallet.isReady()] true: with the error message in the first case,
    with the ready message in the second; every earlier event puts
    nothing, and while no such event arrives it keeps waiting. *)
Theorem C4_readiness_watcher_terminal (events : list (JS.value * bool)) :
  let run := listenForWalletReady HathorWallet_ERROR events in
  length (status_messages (trace run)) ≤ 1 ∧
  ¬ (Put walletStateReady ∈ trace run ∧ Put walletStateError ∈ trace run) ∧
  ((Forall (λ ev, ¬ decisive HathorWallet_ERROR ev) events ∧
    run = ([], Block)) ∨
   (∃ pre message ready post,
      events = pre ++ (message, ready) :: post ∧
      Forall (λ ev, ¬ decisive HathorWallet_ERROR ev) pre ∧
      listenForWalletReady HathorWallet_ERROR (pre ++ [(message, ready)]) = run ∧
      ((message = HathorWallet_ERROR ∧ run = ends_in_error) ∨
       (message ≠ HathorWallet_ERROR ∧ ready = true ∧ run = ends_ready)))).
Proof.
  intros run.
  destruct (listenForWalletReady_cases events)
    as [[Hall Hrun]|(pre & m & r & post & Hev & Hpre & Hrun)].
  - fold run in Hrun. rewrite Hrun. split_and!.
    + cbn. lia.
    + cbn. intros [H _]. by apply elem_of_nil in H.
    + left. by split.
  - fold run in Hrun. split_and!.
    + destruct Hrun as [[_ ->]|(_ & _ & ->)]; cbn; done.
    + destruct Hrun as [[_ ->]|(_ & _ & ->)]; cbn;
        intros [H1 H2]; in_trace.
    + right. exists pre, m, r, post. split_and!; [done..| |done].
      subst run events. rewrite !listenForWalletReady_skip by done.
      cbn [listenForWalletReady].
      destruct Hrun as [[-> _]|(Hne & -> & _)].
      * unfold JS.strict_eq. by rewrite bool_decide_eq_true_2.
      * unfold JS.strict_eq. by rewrite bool_decide_eq_false_2.
Qed.

End Watchers.

(** ** Arrays and sets *)

Lemma indexOf_from_spec {A} `{EqDecision A} (x : A) (l : list A) (i : Z) :
  (0 ≤ i)%Z →
  (x ∈ l → (i ≤ JS.indexOf_from i x l)%Z) ∧
  (x ∉ l → JS.indexOf_from i x l = (-1)%Z).
Proof.
  revert i. induction l as [|y l IH]; intros i Hi.
  { split; [by intros ?%elem_of_nil|done]. }
  cbn [JS.indexOf_from]. destruct (decide (y = x)) as [->|Hne].
  - split; [lia|]. intros []. by left.
  - destruct (IH (i + 1)%Z ltac:(lia)) as [Hin Hout]. split.
    + intros [?|Hx]%elem_of_cons; [congruence|]. specialize (Hin Hx). lia.
    + intros Hx. apply Hout. intros ?. apply Hx. by right.
Qed.

Lemma indexOf_absent {A} `{EqDecision A} (x : A) (l : list A) :
  JS.indexOf l x = (-1)%Z ↔ x ∉ l.
Proof.
  unfold JS.indexOf. destruct (indexOf_from_spec x l 0 ltac:(lia)) as [Hin Hout].
  split; [|done]. intros Heq Hx. specialize (Hin Hx). lia.
Qed.

Lemma Set_add_elem {A} `{EqDecision A} (s : list A) (x y : A) :
  y ∈ JS.Set_add s x ↔ y ∈ s ∨ y = x.
Proof.
  unfold JS.Set_add. destruct (decide (x ∈ s)) as [Hx|Hx].
  - split; [by left|]. by intros [?| ->].
  - rewrite elem_of_app, list_elem_of_singleton. done.
Qed.

Lemma Set_add_NoDup {A} `{EqDecision A} (s : list A) (x : A) :
  NoDup s → NoDup (JS.Set_add s x).
Proof.
  intros Hs. unfold JS.Set_add. destruct (decide (x ∈ s)) as [Hx|Hx]; [done|].
  apply NoDup_app. split_and!; [done| |apply NoDup_singleton].
  intros y Hy ->%list_elem_of_singleton. done.
Qed.

Lemma Set_add_fold {A B} `{EqDecision A} (f : B → A) (l : list B) (s : list A) :
  NoDup s →
  NoDup (foldl (λ s b, JS.Set_add s (f b)) s l) ∧
  ∀ y, y ∈ foldl (λ s b, JS.Set_add s (f b)) s l ↔ y ∈ s ∨ y ∈ f <$> l.
Proof.
  revert s. induction l as [|b l IH]; intros s Hs; cbn [foldl].
  { split; [done|]. intros y. rewrite fmap_nil, elem_of_nil. tauto. }
  destruct (IH (JS.Set_add s (f b)) (Set_add_NoDup s (f b) Hs)) as [Hnd Hel].
  split; [done|]. intros y.
  rewrite Hel, Set_add_elem, fmap_cons, elem_of_cons. tauto.
Qed.

Section Handlers.

Variable htrUid : tokenId.
Variable isBlock : Tx → bool.

Lemma affectedTokens_spec (tx : Tx) :
  NoDup (affectedTokens tx) ∧
  ∀ t, t ∈ affectedTokens tx ↔ t ∈ token <$> (outputs tx ++ inputs tx).
Proof.
  unfold affectedTokens.
  destruct (Set_add_fold token (outputs tx) [] (NoDup_nil_2)) as [Hnd1 Hel1].
  destruct (Set_add_fold token (inputs tx) _ Hnd1) as [Hnd2 Hel2].
  split; [done|]. intros t.
  rewrite Hel2, Hel1, fmap_app, elem_of_app, elem_of_nil. tauto.
Qed.

Lemma handleTx_loop (registered affected : list tokenId) :
  for_of affected (λ tokenUid,
    if decide (JS.indexOf registered tokenUid = (-1)%Z) then mret tt
    else
      put (tokenFetchBalanceRequested tokenUid (Some true)) ;;
      put (tokenFetchHistoryRequested tokenUid (Some true)))
  = (Put <$> (filter (λ t, t ∈ registered) affected ≫= refetch), Ret tt).
Proof.
  rewrite for_of_total by (intros x; by case_decide). f_equal.
  induction affected as [|t ts IH]; [done|].
  cbn [flat_map]. rewrite IH, filter_cons.
  destruct (decide (JS.indexOf registered t = (-1)%Z)) as [Ha|Ha].
  - apply indexOf_absent in Ha. by rewrite decide_False.
  - rewrite decide_True; [done|].
    destruct (decide (t ∈ registered)) as [|Hn]; [done|].
    by apply indexOf_absent in Hn.
Qed.

Lemma handleTx_run (st : AppState) (tx : Tx) :
  isReady (state_wallet st) = true →
  handleTx isBlock st tx =
    (sendNotification (notice isBlock tx)
     :: (Put <$>
          sharedAddressUpdate (address (getCurrentAddress (state_wallet st)))
                              (index (getCurrentAddress (state_wallet st)))
          :: (filter (λ t, t ∈ uid <$> state_tokens st) (affectedTokens tx)
              ≫= refetch)),
     Ret tt).
Proof.
  intros Hready. unfold handleTx. rewrite Hready. cbn [negb].
  rewrite handleTx_loop. reflexivity.
Qed.

Lemma puts_Put (l : list action) : puts (Put <$> l) = l.
Proof. unfold puts. induction l as [|a l IH]; [done|]. cbn. by f_equal. Qed.

Lemma balance_requests_refetch (ts : list tokenId) :
  omap (λ a, match a with
             | tokenFetchBalanceRequested tok force => Some (tok, force)
             | _ => None
             end) (ts ≫= refetch) = (λ t, (t, Some true)) <$> ts.
Proof. induction ts as [|t ts IH]; [done|]. cbn. by rewrite IH. Qed.

Lemma history_requests_refetch (ts : list tokenId) :
  omap (λ a, match a with
             | tokenFetchHistoryRequested tok force => Some (tok, force)
             | _ => None
             end) (ts ≫= refetch) = (λ t, (t, Some true)) <$> ts.
Proof. induction ts as [|t ts IH]; [done|]. cbn. by rewrite IH. Qed.

(** C7. A transaction event met while the facade is not ready yields
    nothing at all.  Otherwise the handler works on the duplicate-free
    set of the tokens of the transaction's outputs and inputs, puts the
    shared address read from [getCurrentAddress] whatever the tokens are,
    and then, for each affected token registered in the state and for no
    other, one forced balance request and one forced history request. *)
Theorem C7_handleTx_refetch (st : AppState) (tx : Tx) :
  let run := handleTx isBlock st tx in
  let current := getCurrentAddress (state_wallet st) in
  let targets :=
    filter (λ t, t ∈ uid <$> state_tokens st) (affectedTokens tx) in
  (isReady (state_wallet st) = false → run = ([], Ret tt)) ∧
  (isReady (state_wallet st) = true →
     NoDup (affectedTokens tx) ∧
     (∀ t, t ∈ affectedTokens tx ↔ t ∈ token <$> (outputs tx ++ inputs tx)) ∧
     NoDup targets ∧
     (∀ t, t ∈ targets ↔
           t ∈ token <$> (outputs tx ++ inputs tx) ∧
           t ∈ uid <$> state_tokens st) ∧
     outcome run = Ret tt ∧
     puts (trace run) =
       sharedAddressUpdate (address current) (index current)
       :: (targets ≫= refetch) ∧
     balance_requests (trace run) = (λ t, (t, Some true)) <$> targets ∧
     history_requests (trace run) = (λ t, (t, Some true)) <$> targets).
Proof.
  intros run current targets. split.
  - intros Hready. unfold run, handleTx. by rewrite Hready.
  - intros Hready. destruct (affectedTokens_spec tx) as [Hnd Hel].
    assert (puts (trace run) =
            sharedAddressUpdate (address current) (index current)
            :: (targets ≫= refetch)) as Hputs.
    { unfold run. rewrite handleTx_run by done. cbn [trace fst].
      change (sendNotification ?m :: ?l) with ([sendNotification m] ++ l).
      rewrite puts_app, puts_Put. done. }
    split_and!; [done|done|by apply NoDup_filter| | |done| |].
    + intros t. unfold targets. rewrite list_elem_of_filter, Hel. tauto.
    + unfold run. by rewrite handleTx_run.
    + unfold balance_requests. rewrite Hputs. cbn [omap].
      apply balance_requests_refetch.
    + unfold history_requests. rewrite Hputs. cbn [omap].
      apply history_requests_refetch.
Qed.

(** C8. A best-block message met while the facade is not ready yields
    nothing.  With a ready facade, a height equal to the recorded one
    yields no balance request, and a different height yields exactly one
    effect: a balance request for the base-currency token. *)
Theorem C8_bestBlockUpdate_height (st : AppState) (payload : JS.value) :
  let run := bestBlockUpdate htrUid st payload in
  (isReady (state_wallet st) = false → run = ([], Ret tt)) ∧
  (isReady (state_wallet st) = true → payload = state_height st →
     balance_requests (trace run) = [] ∧ run = ([], Ret tt)) ∧
  (isReady (state_wallet st) = true → payload ≠ state_height st →
     balance_requests (trace run) = [(htrUid, None)] ∧
     run = ([Put (tokenFetchBalanceRequested htrUid None)], Ret tt)).
Proof.
  intros run. unfold run, bestBlockUpdate. split_and!; intros Hready.
  - by rewrite Hready.
  - intros ->. rewrite Hready. cbn [negb].
    unfold JS.strict_neq, JS.strict_eq. by rewrite bool_decide_eq_true_2.
  - intros Hne. rewrite Hready. cbn [negb].
    unfold JS.strict_neq, JS.strict_eq. by rewrite bool_decide_eq_false_2.
Qed.

End Handlers.

(** ** Metadata aggregation *)



Lemma fetchTokensMetadata_run (tokens : list tokenId) (dispatched : list action) :
  tokens ≠ [] →
  fetchTokensMetadata tokens dispatched =
    match take_responses tokens dispatched with
    | Some responses =>
        (Put (metadataLoaded false)
         :: (Put ∘ TOKEN_FETCH_METADATA_REQUESTED <$> tokens)
         ++ [All (metadata_response <$> tokens);
             Put (tokenMetadataUpdated (aggregate responses).1
                                       (aggregate responses).2)],
         Ret tt)
    | None =>
        (Put (metadataLoaded false)
         :: (Put ∘ TOKEN_FETCH_METADATA_REQUESTED <$> tokens)
         ++ [All (metadata_response <$> tokens)],
         Block)
    end.
Proof.
  intros Hne. unfold fetchTokensMetadata.
  rewrite decide_False by by destruct tokens.
  rewrite for_of_put.
  destruct (take_responses tokens dispatched) as [responses|]; cbn.
  - by destruct (aggregate responses).
  - done.
Qed.


(** ** Listener registrations *)

Lemma remove_first_absent (r : string * EventEmitter.closure) (l : EventEmitter.t) :
  r ∉ l → EventEmitter.remove_first r l = l.
Proof.
  induction l as [|r' l IH]; [done|]. intros Hr. cbn.
  rewrite decide_False by (intros ->; apply Hr; left).
  f_equal. apply IH. intros ?. apply Hr. by right.
Qed.

Lemma removeListener_absent_list (name : string) (f : EventEmitter.closure)
    (em : EventEmitter.t) :
  (name, f) ∉ em → EventEmitter.removeListener name f em = em.
Proof.
  intros Hr. unfold EventEmitter.removeListener.
  rewrite remove_first_absent by by rewrite elem_of_reverse.
  apply reverse_involutive.
Qed.

(** A listener that was never registered is not there to be removed. *)
Lemma removeListener_absent `{Target T} (name : string)
    (x : EventEmitter.closure) (w : World) :
  absent x w → removeListener T name x w = w.
Proof.
  intros Hx. unfold removeListener. apply target_same.
  apply removeListener_absent_list. intros Hin. apply (Hx name).
  apply target_before. by left.
Qed.

Lemma cancel_task_ended (t : Task) (w : World) :
  running t = false → cancel_task t w = (t, w).
Proof. intros Hr. unfold cancel_task. by rewrite Hr. Qed.

Lemma cancel_ended (threads : list Task) (w : World) :
  Forall (λ t, running t = false) threads → cancel threads w = (threads, w).
Proof.
  induction 1 as [|t ts Ht _ IH]; [done|].
  cbn [cancel]. by rewrite cancel_task_ended, IH.
Qed.

(** C1, as the code has it.  Each listener saga registers arrow functions
    written in place and, on cancellation, asks to remove a different
    function object that was never registered.  So for any world whose
    registered listeners were allocated earlier: forking the thread group
    adds six registrations for the event bridge, one for the readiness
    watcher and one for the feature-flag watcher; cancelling the group ends
    the three tasks with their channels closed and leaves every one of
    these registrations in place; cancelling once more changes nothing. *)
Theorem C1_cancel_leaves_listeners (WALLET_SERVICE_ENABLED : string) (w : World) :
  allocated w →
  let n := next_closure w in
  let forked := fork_threads WALLET_SERVICE_ENABLED w in
  let cancelled := cancel forked.1 forked.2 in
  wallet_listeners forked.2 =
    wallet_listeners w ++ [("reload-data", 4 + n); ("update-tx", 5 + n);
                           ("new-tx", 6 + n); ("state", 8 + n)] ∧
  conn_listeners forked.2 =
    conn_listeners w ++ [("best-block-update", 1 + n);
                         ("wallet-load-partial-update", 2 + n);
                         ("state", 3 + n)] ∧
  featureFlags_listeners forked.2 =
    featureFlags_listeners w ++ [(WALLET_SERVICE_ENABLED, 10 + n)] ∧
  cancelled.2 = forked.2 ∧
  Forall (λ t, running t = false ∧ closed (channel t) = true) cancelled.1 ∧
  cancel cancelled.1 cancelled.2 = cancelled.
Proof.
  intros Hw n forked cancelled.
  assert (forked = fork_threads WALLET_SERVICE_ENABLED w) as Hfork by done.
  clearbody forked. destruct forked as [threads w1].
  cbn in Hfork. fold n in Hfork. injection Hfork as -> Hw1.
  assert (∀ x, n ≤ x →
               x ∉ [1 + n; 2 + n; 3 + n; 4 + n; 5 + n; 6 + n; 8 + n; 10 + n] →
               absent x w1) as Habsent.
  { intros x Hx Hnew name Hin. apply Hnew. clear Hnew. subst w1.
    unfold registrations in Hin. cbn in Hin. fold n in Hin.
    rewrite !elem_of_app, !list_elem_of_singleton in Hin.
    destruct_or!;
      first [ injection Hin as _ ->; cbn; rewrite !elem_of_cons; tauto
            | exfalso; assert ((name, x) ∈ registrations w) as Hr
                by (unfold registrations; rewrite !elem_of_app; tauto);
              specialize (Hw _ Hr); cbn in Hw; lia ]. }
  assert (cancelled.2 = w1 ∧
          Forall (λ t, running t = false ∧ closed (channel t) = true) cancelled.1)
    as [Hsame Hended].
  { subst cancelled. cbn -[removeListener].
    repeat rewrite (removeListener_absent _ _ w1)
      by (apply Habsent; [lia|rewrite !elem_of_cons, elem_of_nil; lia]).
    split; [done|]. repeat constructor. }
  cbn [fst snd] in *. split_and!.
  - subst w1. cbn. by rewrite <- !app_assoc.
  - subst w1. cbn. by rewrite <- !app_assoc.
  - by subst w1.
  - done.
  - done.
  - rewrite cancel_ended; [by destruct cancelled|].
    eapply Forall_impl; [exact Hended|]. by intros t [? _].
Qed.

(** ** The lifecycle: start and reload *)

Section Lifecycle.

Variable htrUid : tokenId.

(** [loadTokens] raises at its first or second call, or returns after one
    balance request per token of the facade. *)
Lemma loadTokens_run (fetch : option unit) (wallet : Wallet) (stored : list Token) :
  loadTokens htrUid fetch wallet stored =
    match fetch, getTokens wallet with
    | None, _ => ([Call (fetchTokenData_call htrUid)], Throw)
    | Some _, None =>
        ([Call (fetchTokenData_call htrUid); Call wallet_getTokens_call], Throw)
    | Some _, Some allTokens =>
        (loaded htrUid stored allTokens,
         Ret (allTokens, registered_uids htrUid stored))
    end.
Proof.
  unfold loadTokens, loaded. destruct fetch as [[]|]; [|done].
  destruct (getTokens wallet) as [allTokens|]; [|done].
  cbn. rewrite for_of_put. cbn. by rewrite app_nil_r.
Qed.

(** [startWallet], phase by phase. *)
Lemma startWallet_run (env : StartEnv) (payload : StartPayload) :
  startWallet htrUid env payload =
    prefix (start_called env payload) (start_tail htrUid env payload).
Proof.
  unfold startWallet, start_tail, start_phase, unrouted_phase, ready_phase,
    load_phase, start_called, start_fallback, prefix, facade, resolve.
  assert (∀ l : list effect, l ++ [] = l) as Hnil by apply app_nil_r.
  destruct (routerHistory payload) as [[]|].
  - destruct (isHardwareWallet env); cbn -[loadTokens];
      [|destruct (shouldUseWalletService (featureFlags env)); cbn -[loadTokens]].
    all: match goal with
         | |- context [start ?w] => destruct (start w) as [[info|]|]
         end; cbn -[loadTokens]; try done.
    all: match goal with
         | |- context [isReady ?w] => destruct (isReady w)
         end; cbn -[loadTokens];
         [|destruct (readiness_race env) as [[]|]; cbn -[loadTokens]; try done].
    all: rewrite loadTokens_run; unfold loaded;
         destruct (fetchTokenData env) as [[]|]; cbn; try done;
         match goal with
         | |- context [getTokens ?w] => destruct (getTokens w) as [allTokens|]
         end; cbn; try done;
         destruct (parked_race env) as [[]|]; cbn;
         rewrite <- ?app_assoc; cbn; rewrite ?Hnil; done.
  - destruct (isHardwareWallet env); cbn -[loadTokens];
      [|destruct (shouldUseWalletService (featureFlags env)); cbn -[loadTokens]].
    all: match goal with
         | |- context [start ?w] => destruct (start w) as [[info|]|]
         end; cbn -[loadTokens]; done.
Qed.

(** With a router history in the payload. *)
Lemma startWallet_routed (env : StartEnv) (payload : StartPayload) :
  routerHistory payload = Some tt →
  startWallet htrUid env payload =
    prefix (start_called env payload) (start_phase htrUid env payload).
Proof. intros Hrh. rewrite startWallet_run. unfold start_tail. by rewrite Hrh. Qed.

(** The fallback comes before the first redirect. *)
Lemma startWallet_fallback (env : StartEnv) (payload : StartPayload) :
  falls_back env →
  startWallet htrUid env payload
  = (start_called env payload ++ start_fallback payload, Ret tt).
Proof.
  intros [Hres Hstart]. rewrite startWallet_run.
  unfold start_tail, start_phase, unrouted_phase, prefix.
  rewrite Hstart, Hres. by destruct (routerHistory payload).
Qed.

(** Quiet stretches compose. *)
Lemma clean_app (t1 t2 : list effect) : clean t1 → clean t2 → clean (t1 ++ t2).
Proof. unfold clean. intros (?&?&?&?&?) (?&?&?&?&?). split_and!; in_trace. Qed.

Lemma no_loading_app (t1 t2 : list effect) :
  no_loading t1 → no_loading t2 → no_loading (t1 ++ t2).
Proof. unfold no_loading. intros H1 H2 b. specialize (H1 b). specialize (H2 b). in_trace. Qed.

Lemma no_ignore_app (t1 t2 : list effect) :
  no_ignore t1 → no_ignore t2 → no_ignore (t1 ++ t2).
Proof. unfold no_ignore. in_trace. Qed.

Lemma loaded_quiet (stored : list Token) (allTokens : list tokenId) :
  clean (loaded htrUid stored allTokens) ∧
  no_loading (loaded htrUid stored allTokens) ∧
  no_ignore (loaded htrUid stored allTokens).
Proof. unfold clean, no_loading, no_ignore, loaded. split_and!; in_trace. Qed.

Lemma start_called_head (env : StartEnv) (payload : StartPayload) :
  ∃ rest, start_called env payload = Put (loadingAddresses true) :: rest ∧
          clean rest ∧ no_loading rest ∧ no_ignore rest ∧
          new_wallet (resolve env) ∈ rest.
Proof.
  unfold start_called, clean, no_loading, no_ignore.
  destruct (isHardwareWallet env); eexists;
    (split; [reflexivity|]); split_and!; in_trace.
Qed.

(** How the token-loading part of [startWallet] ends. *)
Lemma load_phase_cases (env : StartEnv) (payload : StartPayload) :
  let run := load_phase htrUid env payload in
  (loader_raises (fetchTokenData env) (facade env) ∧
   ∃ before, run = (before ++ [Put startWalletFailed; Cancel_threads], Ret tt) ∧
             clean before ∧ no_loading before ∧ no_ignore before) ∨
  (¬ loader_raises (fetchTokenData env) (facade env) ∧
   ∃ allTokens before after,
     trace run = before ++ Put (loadingAddresses false) :: after ∧
     clean before ∧ no_loading before ∧ no_ignore before ∧
     Put (loadWalletSuccess allTokens) ∈ before ∧
     no_loading after ∧ no_ignore after ∧ (Put startWalletFailed ∉ after) ∧
     outcome run ≠ Throw).
Proof.
  intros run. unfold run, load_phase, loader_raises.
  destruct (fetchTokenData env) as [[]|].
  - destruct (getTokens (facade env)) as [allTokens|].
    + right. split; [by intros [|]|].
      destruct (loaded_quiet (stored_tokens env) allTokens) as (Hc & Hl & Hi).
      exists allTokens,
        (loaded htrUid (stored_tokens env) allTokens
         ++ [Put (loadWalletSuccess allTokens); routerHistory_replace "/wallet/"]).
      destruct (parked_race env) as [[]|]; eexists;
        (split; [unfold prefix; cbn; rewrite <- !app_assoc; reflexivity|]);
        (split; [apply clean_app; [done|unfold clean; split_and!; in_trace]|]);
        (split; [apply no_loading_app; [done|unfold no_loading; in_trace]|]);
        (split; [apply no_ignore_app; [done|unfold no_ignore; in_trace]|]);
        (split; [in_trace|]);
        unfold no_loading, no_ignore; split_and!; try done; in_trace.
    + left. split; [by right|]. eexists [_; _].
      split; [reflexivity|]. unfold clean, no_loading, no_ignore.
      split_and!; in_trace.
  - left. split; [by left|]. eexists [_].
    split; [reflexivity|]. unfold clean, no_loading, no_ignore.
    split_and!; in_trace.
Qed.

(** The four ways a start attempt that did not fall back goes on. *)
Lemma ready_phase_cases (env : StartEnv) (payload : StartPayload) :
  let run := ready_phase htrUid env payload in
  ∃ rest, trace run = routerHistory_replace "/loading_addresses" :: rest ∧
  ((isReady (facade env) = false ∧ readiness_race env = None ∧
    outcome run = Block ∧ clean rest ∧ no_loading rest ∧ no_ignore rest) ∨
   ((readiness_error env ∨
     (readiness_passed env ∧ loader_raises (fetchTokenData env) (facade env))) ∧
    ∃ before, rest = before ++ [Put startWalletFailed; Cancel_threads] ∧
              outcome run = Ret tt ∧
              clean before ∧ no_loading before ∧ no_ignore before) ∨
   (readiness_passed env ∧ ¬ loader_raises (fetchTokenData env) (facade env) ∧
    ∃ allTokens before after,
      rest = before ++ Put (loadingAddresses false) :: after ∧
      clean before ∧ no_loading before ∧ no_ignore before ∧
      Put (loadWalletSuccess allTokens) ∈ before ∧
      no_loading after ∧ no_ignore after ∧ (Put startWalletFailed ∉ after) ∧
      outcome run ≠ Throw)).
Proof.
  intros run. unfold run, ready_phase, readiness_error, readiness_passed.
  assert (∀ wait : list effect,
            wait = [] ∨ wait = [Race [WALLET_STATE_READY; WALLET_STATE_ERROR]] →
            clean wait ∧ no_loading wait ∧ no_ignore wait) as Hwait.
  { unfold clean, no_loading, no_ignore. intros wait [->| ->]; split_and!; in_trace. }
  assert (∀ wait : list effect,
            wait = [] ∨ wait = [Race [WALLET_STATE_READY; WALLET_STATE_ERROR]] →
            (isReady (facade env) = true ∨ readiness_race env = Some false) →
            let run := prefix wait (load_phase htrUid env payload) in
            (loader_raises (fetchTokenData env) (facade env) ∧
             ∃ before, trace run = before ++ [Put startWalletFailed; Cancel_threads] ∧
                       outcome run = Ret tt ∧
                       clean before ∧ no_loading before ∧ no_ignore before) ∨
            (¬ loader_raises (fetchTokenData env) (facade env) ∧
             ∃ allTokens before after,
               trace run = before ++ Put (loadingAddresses false) :: after ∧
               clean before ∧ no_loading before ∧ no_ignore before ∧
               Put (loadWalletSuccess allTokens) ∈ before ∧
               no_loading after ∧ no_ignore after ∧
               (Put startWalletFailed ∉ after) ∧
               outcome run ≠ Throw)) as Hload.
  { intros wait Hw Hpassed run0. subst run0.
    destruct (Hwait wait Hw) as (Hc & Hl & Hi).
    destruct (load_phase_cases env payload)
      as [[Hraises (before & Hrun & Hcb & Hlb & Hib)]
         |[Hok (allTokens & before & after & Hrun & Hcb & Hlb & Hib & Hrest)]].
    - left. split; [done|]. exists (wait ++ before).
      unfold prefix, trace, outcome in *. rewrite Hrun. cbn [fst snd].
      rewrite app_assoc. split_and!;
        [done|done|by apply clean_app|by apply no_loading_app
        |by apply no_ignore_app].
    - right. split; [done|]. exists allTokens, (wait ++ before), after.
      unfold prefix, trace, outcome in *. cbn [fst snd].
      rewrite Hrun, app_assoc. destruct Hrest as (? & ? & ? & ? & ?).
      split_and!;
        [done|by apply clean_app|by apply no_loading_app
        |by apply no_ignore_app|apply elem_of_app; by right|done..]. }
  destruct (isReady (facade env)) eqn:Hready.
  - eexists. split; [reflexivity|].
    destruct (Hload [] (or_introl eq_refl) (or_introl eq_refl))
      as [[Hraises Hrest]|[Hok Hrest]];
      unfold prefix, trace, outcome in *; cbn [fst snd app] in *.
    + right. left. split; [right; split; [by left|done]|].
      destruct Hrest as (before & Hrun & Hout & Hrest).
      exists before. by rewrite Hrun, Hout.
    + right. right. split; [by left|]. split; [done|].
      destruct Hrest as (allTokens & before & after & Hrun & Hrest).
      exists allTokens, before, after. by rewrite Hrun.
  - destruct (readiness_race env) as [[]|] eqn:Hrace.
    + eexists. split; [reflexivity|]. right. left.
      split; [by left|]. exists [Race [WALLET_STATE_READY; WALLET_STATE_ERROR]].
      split_and!; [done|done|by apply Hwait; right..].
    + eexists. split; [reflexivity|].
      destruct (Hload _ (or_intror eq_refl) (or_intror eq_refl))
        as [[Hraises Hrest]|[Hok Hrest]];
        unfold prefix, trace, outcome in *; cbn [fst snd app] in *.
      * right. left. split; [right; split; [by right|done]|].
        destruct Hrest as (before & Hrun & Hout & Hrest).
        exists before. by rewrite Hrun, Hout.
      * right. right. split; [by right|]. split; [done|].
        destruct Hrest as (allTokens & before & after & Hrun & Hrest).
        exists allTokens, before, after. by rewrite Hrun.
    + eexists. split; [reflexivity|]. left.
      split_and!; [done|done|done|by apply Hwait; right..].
Qed.

(** How one start attempt ends when its payload carries a router
    history. *)
Lemma startWallet_cases (env : StartEnv) (payload : StartPayload) :
  routerHistory payload = Some tt →
  let run := startWallet htrUid env payload in
  ∃ rest, trace run = Put (loadingAddresses true) :: rest ∧
  ((falls_back env ∧ outcome run = Ret tt ∧
    no_loading rest ∧ Put startWalletFailed ∉ rest) ∨
   (¬ falls_back env ∧
    isReady (facade env) = false ∧ readiness_race env = None ∧
    outcome run = Block ∧ clean rest ∧ no_loading rest ∧ no_ignore rest) ∨
   (¬ falls_back env ∧
    (readiness_error env ∨
     (readiness_passed env ∧ loader_raises (fetchTokenData env) (facade env))) ∧
    ∃ before, rest = before ++ [Put startWalletFailed; Cancel_threads] ∧
              outcome run = Ret tt ∧
              clean before ∧ no_loading before ∧ no_ignore before) ∨
   (¬ falls_back env ∧
    readiness_passed env ∧ ¬ loader_raises (fetchTokenData env) (facade env) ∧
    ∃ allTokens before after,
      rest = before ++ Put (loadingAddresses false) :: after ∧
      clean before ∧ no_loading before ∧ no_ignore before ∧
      Put (loadWalletSuccess allTokens) ∈ before ∧
      no_loading after ∧ no_ignore after ∧ (Put startWalletFailed ∉ after) ∧
      outcome run ≠ Throw)).
Proof.
  intros Hrh run. unfold run. rewrite startWallet_routed by done. clear Hrh.
  destruct (start_called_head env payload) as (sc & -> & Hc & Hl & Hi & _).
  assert (∀ info : list effect,
            (info = [] ∨ ∃ v n, info = [Put (setServerInfo v n)]) →
            clean (sc ++ info ++ [routerHistory_replace "/loading_addresses"]) ∧
            no_loading (sc ++ info ++ [routerHistory_replace "/loading_addresses"]) ∧
            no_ignore (sc ++ info ++ [routerHistory_replace "/loading_addresses"]))
    as Hinfo.
  { intros info Hinfo. split_and!;
      [apply clean_app; [done|]|apply no_loading_app; [done|]
      |apply no_ignore_app; [done|]];
      destruct Hinfo as [->|(v & n & ->)];
      unfold clean, no_loading, no_ignore; split_and?; in_trace. }
  assert (∀ info : list effect,
            (info = [] ∨ ∃ v n, info = [Put (setServerInfo v n)]) →
            ¬ falls_back env →
            start_phase htrUid env payload
              = prefix info (ready_phase htrUid env payload) →
            ∃ rest,
              trace (prefix (Put (loadingAddresses true) :: sc)
                            (start_phase htrUid env payload))
                = Put (loadingAddresses true) :: rest ∧
              ((falls_back env ∧
                outcome (prefix (Put (loadingAddresses true) :: sc)
                                (start_phase htrUid env payload)) = Ret tt ∧
                no_loading rest ∧ Put startWalletFailed ∉ rest) ∨
               (¬ falls_back env ∧
                isReady (facade env) = false ∧ readiness_race env = None ∧
                outcome (prefix (Put (loadingAddresses true) :: sc)
                                (start_phase htrUid env payload)) = Block ∧
                clean rest ∧ no_loading rest ∧ no_ignore rest) ∨
               (¬ falls_back env ∧
                (readiness_error env ∨
                 (readiness_passed env ∧
                  loader_raises (fetchTokenData env) (facade env))) ∧
                ∃ before, rest = before ++ [Put startWalletFailed; Cancel_threads] ∧
                          outcome (prefix (Put (loadingAddresses true) :: sc)
                                          (start_phase htrUid env payload)) = Ret tt ∧
                          clean before ∧ no_loading before ∧ no_ignore before) ∨
               (¬ falls_back env ∧
                readiness_passed env ∧
                ¬ loader_raises (fetchTokenData env) (facade env) ∧
                ∃ allTokens before after,
                  rest = before ++ Put (loadingAddresses false) :: after ∧
                  clean before ∧ no_loading before ∧ no_ignore before ∧
                  Put (loadWalletSuccess allTokens) ∈ before ∧
                  no_loading after ∧ no_ignore after ∧
                  (Put startWalletFailed ∉ after) ∧
                  outcome (prefix (Put (loadingAddresses true) :: sc)
                                  (start_phase htrUid env payload)) ≠ Throw)))
    as Hgo.
  { intros info Hi0 Hnf ->. destruct (Hinfo info Hi0) as (Hc' & Hl' & Hi').
    destruct (ready_phase_cases env payload) as (rr & Hrr & Hcases).
    unfold prefix, trace, outcome in *. cbn [fst snd] in *. rewrite Hrr.
    exists (sc ++ info ++ routerHistory_replace "/loading_addresses" :: rr).
    split; [done|].
    destruct Hcases
      as [(Hr & Hrace & Hout & Hcr & Hlr & Hir)
         |[(Hcond & before & -> & Hout & Hcb & Hlb & Hib)
          |(Hp & Hok & allTokens & before & after & -> & Hcb & Hlb & Hib & Hrest)]].
    - right. left. split_and!; [done..| | |].
      + replace (sc ++ info ++ routerHistory_replace "/loading_addresses" :: rr)
          with ((sc ++ info ++ [routerHistory_replace "/loading_addresses"]) ++ rr)
          by (by rewrite <- !app_assoc). by apply clean_app.
      + replace (sc ++ info ++ routerHistory_replace "/loading_addresses" :: rr)
          with ((sc ++ info ++ [routerHistory_replace "/loading_addresses"]) ++ rr)
          by (by rewrite <- !app_assoc). by apply no_loading_app.
      + replace (sc ++ info ++ routerHistory_replace "/loading_addresses" :: rr)
          with ((sc ++ info ++ [routerHistory_replace "/loading_addresses"]) ++ rr)
          by (by rewrite <- !app_assoc). by apply no_ignore_app.
    - right. right. left. split_and!; [done..|].
      exists ((sc ++ info ++ [routerHistory_replace "/loading_addresses"]) ++ before).
      split_and!; [by rewrite <- !app_assoc|done|by apply clean_app
                  |by apply no_loading_app|by apply no_ignore_app].
    - right. right. right. split_and!; [done..|].
      exists allTokens,
        ((sc ++ info ++ [routerHistory_replace "/loading_addresses"]) ++ before),
        after.
      destruct Hrest as (? & ? & ? & ? & ?).
      split_and!; [by rewrite <- !app_assoc|by apply clean_app
                  |by apply no_loading_app|by apply no_ignore_app
                  |apply elem_of_app; by right|done..]. }
  unfold start_phase in *. destruct (start (facade env)) as [serverInfo|] eqn:Hstart.
  - apply (Hgo [Put (match serverInfo with
                          | Some info => setServerInfo (version info) (network info)
                          | None => setServerInfo JS.Undefined (network_name env)
                          end)]);
      [right; destruct serverInfo; by eexists _, _| |done].
    intros [_ ?]. congruence.
  - destruct (resolve env) eqn:Hres.
    + clear Hgo Hinfo. eexists. split; [reflexivity|].
      left. split_and!; [done|done| |].
      * unfold start_fallback. apply no_loading_app; [done|].
        unfold no_loading. in_trace.
      * destruct Hc as (Hf & _). unfold start_fallback. in_trace.
    + apply (Hgo []); [by left| |done]. intros [? _]. congruence.
Qed.

(** Without router history a start attempt that does not fall back throws
    at its first redirect. *)
Lemma startWallet_unrouted (env : StartEnv) (payload : StartPayload) :
  routerHistory payload = None → ¬ falls_back env →
  ∃ info,
    startWallet htrUid env payload = (start_called env payload ++ info, Throw) ∧
    ((info = [] ∧ start (facade env) = None) ∨
     ∃ v n, info = [Put (setServerInfo v n)]) ∧
    clean info ∧ no_loading info ∧ no_ignore info.
Proof.
  intros Hrh Hnf. rewrite startWallet_run.
  unfold start_tail, unrouted_phase, prefix. rewrite Hrh.
  destruct (start (facade env)) as [serverInfo|] eqn:Hstart.
  - eexists. split; [reflexivity|].
    split; [right; destruct serverInfo; by eexists _, _|].
    destruct serverInfo; unfold clean, no_loading, no_ignore;
      split_and!; in_trace.
  - destruct (resolve env) eqn:Hres; [exfalso; by apply Hnf|].
    exists []. split; [reflexivity|]. split; [by left|].
    unfold clean, no_loading, no_ignore. split_and!; in_trace.
Qed.

(** The invalidation loop of [walletReloading]. *)
Lemma for_of_invalidate (allTokens : list tokenId) :
  for_of allTokens (λ tokenUid,
    if decide (tokenUid = htrUid) then mret tt
    else put (tokenInvalidateHistory tokenUid))
  = (Put ∘ tokenInvalidateHistory <$> filter (λ t, t ≠ htrUid) allTokens, Ret tt).
Proof.
  rewrite for_of_total by (intros x; by case_decide). f_equal.
  induction allTokens as [|t ts IH]; [done|].
  cbn [flat_map]. rewrite IH, filter_cons.
  destruct (decide (t = htrUid)) as [->|Hne].
  - by rewrite decide_False by (intros ?; done).
  - by rewrite decide_True.
Qed.

(** [walletReloading], branch by branch. *)
Lemma walletReloading_run (env : ReloadEnv) (st : AppState) :
  let uws := JS.truthy (state_useWalletService st) in
  let wallet := state_wallet st in
  walletReloading htrUid env st =
    if negb uws && bool_decide (reload_ready env = None)
    then (reload_waited uws, Block)
    else
      match reload_fetchTokenData env, getTokens wallet with
      | None, _ =>
          (reload_waited uws
           ++ [Call (fetchTokenData_call htrUid); Put startWalletFailed], Ret tt)
      | Some _, None =>
          (reload_waited uws
           ++ [Call (fetchTokenData_call htrUid); Call wallet_getTokens_call;
               Put startWalletFailed], Ret tt)
      | Some _, Some allTokens =>
          let invalidated :=
            reload_invalidated htrUid (reload_stored_tokens env) allTokens uws in
          if uws && bool_decide (getNewAddresses wallet = None) then
            (invalidated
             ++ [Call wallet_getNewAddresses_call; Put startWalletFailed], Ret tt)
          else
            match state_routerHistory st with
            | None =>
                (invalidated ++ reload_refreshed allTokens uws
                 ++ [Put startWalletFailed], Ret tt)
            | Some _ =>
                (invalidated ++ reload_refreshed allTokens uws
                 ++ [routerHistory_replace "/wallet/";
                     Put (loadingAddresses false)], Ret tt)
            end
      end.
Proof.
  intros uws wallet. unfold walletReloading.
  rewrite loadTokens_run. fold uws wallet.
  unfold reload_invalidated, reload_refreshed, reload_waited.
  destruct uws; cbn [negb andb].
  - destruct (reload_fetchTokenData env) as [[]|]; [|done].
    destruct (getTokens wallet) as [allTokens|]; [|done].
    cbn. rewrite for_of_invalidate.
    destruct (getNewAddresses wallet) as [[]|]; cbn.
    + destruct (state_routerHistory st) as [[]|]; cbn; by rewrite <- ?app_assoc.
    + by rewrite <- ?app_assoc.
  - destruct (reload_ready env) as [[]|]; [|done]. cbn [bool_decide].
    rewrite bool_decide_eq_false_2 by done.
    destruct (reload_fetchTokenData env) as [[]|]; [|done].
    destruct (getTokens wallet) as [allTokens|]; [|done].
    cbn. rewrite for_of_invalidate. cbn.
    destruct (state_routerHistory st) as [[]|]; cbn; by rewrite <- ?app_assoc.
Qed.

Lemma reload_invalidated_quiet (stored : list Token) (allTokens : list tokenId)
    (uws : bool) :
  ∃ rest, reload_invalidated htrUid stored allTokens uws
          = Put (loadingAddresses true) :: rest ∧
          clean rest ∧ no_loading rest.
Proof.
  unfold reload_invalidated, reload_waited, loaded, clean, no_loading.
  destruct uws; eexists; (split; [reflexivity|]); split_and!; in_trace.
Qed.

(** How one reload cycle ends. *)

Lemma invalidate_quiet (l : list tokenId) :
  clean (Put ∘ tokenInvalidateHistory <$> l) ∧
  no_loading (Put ∘ tokenInvalidateHistory <$> l).
Proof. unfold clean, no_loading. split_and!; in_trace. Qed.

(** Quietness of a trace assembled from known pieces. *)
Ltac quiet :=
  repeat first [ apply clean_app | apply no_loading_app | apply no_ignore_app ];
  first [ assumption
        | apply loaded_quiet
        | apply invalidate_quiet
        | repeat match goal with H : _ |- _ => clear H end;
          unfold clean, no_loading, no_ignore; split_and?; in_trace ].

(** How one reload cycle ends. *)
Lemma walletReloading_cases (env : ReloadEnv) (st : AppState) :
  let run := walletReloading htrUid env st in
  ∃ rest, trace run = Put (loadingAddresses true) :: rest ∧
  ((¬ reload_wait_passed env st ∧ outcome run = Block ∧
    clean rest ∧ no_loading rest) ∨
   (reload_wait_passed env st ∧ reload_fails env st ∧
    ∃ before, rest = before ++ [Put startWalletFailed] ∧
              outcome run = Ret tt ∧ clean before ∧ no_loading before) ∨
   (reload_wait_passed env st ∧ ¬ reload_fails env st ∧
    ∃ allTokens before,
      rest = before ++ [Put (loadingAddresses false)] ∧
      outcome run = Ret tt ∧ clean before ∧ no_loading before ∧
      Put (loadWalletSuccess allTokens) ∈ before)).
Proof.
  intros run. unfold run. rewrite walletReloading_run.
  unfold reload_wait_passed, reload_fails, loader_raises,
    reload_invalidated, reload_refreshed, reload_waited.
  set (wallet := state_wallet st).
  pose (waiting := [Fork listenForWalletReady_task; Take WALLET_STATE_READY]).
  assert (∀ w : list effect, w = [] ∨ w = waiting →
            clean w ∧ no_loading w) as Hw.
  { intros w [->| ->]; unfold waiting; split; quiet. }
  destruct (JS.truthy (state_useWalletService st)) eqn:Huws;
    cbn [negb andb].
  - (* the remote service: no wait *)
    destruct (Hw [] (or_introl eq_refl)) as [Hcw Hlw]. clear Hw.
    destruct (reload_fetchTokenData env) as [[]|] eqn:Hfetch.
    2: { exists ([Call (fetchTokenData_call htrUid)] ++ [Put startWalletFailed]).
         split; [done|]. right. left. split_and!; [by left|by left; left|].
         eexists. split_and!; [done|done|quiet..]. }
    destruct (getTokens wallet) as [allTokens|] eqn:Htokens.
    2: { exists ([Call (fetchTokenData_call htrUid); Call wallet_getTokens_call]
                 ++ [Put startWalletFailed]).
         split; [done|]. right. left. split_and!; [by left|by left; right|].
         eexists. split_and!; [done|done|quiet..]. }
    set (inv := loaded htrUid (reload_stored_tokens env) allTokens
                ++ (Put ∘ tokenInvalidateHistory
                      <$> filter (λ t, t ≠ htrUid) allTokens)).
    assert (clean inv ∧ no_loading inv) as [Hci Hli] by (split; quiet).
    destruct (getNewAddresses wallet) as [[]|] eqn:Hnew; cbn [bool_decide].
    2: { rewrite bool_decide_eq_true_2 by done.
         exists ((inv ++ [Call wallet_getNewAddresses_call])
                 ++ [Put startWalletFailed]).
         split; [cbn; by rewrite <- !app_assoc|].
         right. left. split_and!; [by left|by right; left|].
         eexists. split_and!; [done|done|quiet..]. }
    rewrite bool_decide_eq_false_2 by done.
    destruct (state_routerHistory st) as [[]|] eqn:Hrouter.
    + exists ((inv ++ [Call wallet_getNewAddresses_call;
                       Put walletRefreshSharedAddress;
                       Put (loadWalletSuccess allTokens);
                       routerHistory_replace "/wallet/"])
              ++ [Put (loadingAddresses false)]).
      split; [cbn; by rewrite <- !app_assoc|].
      right. right. split_and!; [by left| |].
      { intros [[|]|[[_ ?]|]]; congruence. }
      eexists allTokens, _. split_and!; [done|done|quiet..|].
      apply elem_of_app. right. in_trace.
    + exists ((inv ++ [Call wallet_getNewAddresses_call;
                       Put walletRefreshSharedAddress;
                       Put (loadWalletSuccess allTokens)])
              ++ [Put startWalletFailed]).
      split; [cbn; by rewrite <- !app_assoc|].
      right. left. split_and!; [by left|by right; right|].
      eexists. split_and!; [done|done|quiet..].
  - (* the local facade: wait for the readiness watcher *)
    destruct (Hw waiting (or_intror eq_refl)) as [Hcw Hlw]. clear Hw.
    destruct (reload_ready env) as [[]|] eqn:Hready; cbn [bool_decide].
    2: { exists waiting. split; [done|]. left.
         split_and!; [by intros [|]|done..]. }
    rewrite bool_decide_eq_false_2 by done.
    destruct (reload_fetchTokenData env) as [[]|] eqn:Hfetch.
    2: { exists ((waiting ++ [Call (fetchTokenData_call htrUid)])
                 ++ [Put startWalletFailed]).
         split; [done|]. right. left. split_and!; [by right|by left; left|].
         eexists. split_and!; [done|done|quiet..]. }
    destruct (getTokens wallet) as [allTokens|] eqn:Htokens.
    2: { exists ((waiting ++ [Call (fetchTokenData_call htrUid);
                              Call wallet_getTokens_call])
                 ++ [Put startWalletFailed]).
         split; [done|]. right. left. split_and!; [by right|by left; right|].
         eexists. split_and!; [done|done|quiet..]. }
    set (inv := loaded htrUid (reload_stored_tokens env) allTokens
                ++ (Put ∘ tokenInvalidateHistory
                      <$> filter (λ t, t ≠ htrUid) allTokens)).
    assert (clean inv ∧ no_loading inv) as [Hci Hli] by (split; quiet).
    destruct (state_routerHistory st) as [[]|] eqn:Hrouter.
    + exists ((waiting ++ inv ++ [Put walletRefreshSharedAddress;
                                  Put (loadWalletSuccess allTokens);
                                  routerHistory_replace "/wallet/"])
              ++ [Put (loadingAddresses false)]).
      split; [cbn; by rewrite <- !app_assoc|].
      right. right. split_and!; [by right| |].
      { intros [[|]|[[? _]|]]; congruence. }
      eexists allTokens, _. split_and!; [done|done|quiet..|].
      apply elem_of_app. right. apply elem_of_app. right. in_trace.
    + exists ((waiting ++ inv ++ [Put walletRefreshSharedAddress;
                                  Put (loadWalletSuccess allTokens)])
              ++ [Put startWalletFailed]).
      split; [cbn; by rewrite <- !app_assoc|].
      right. left. split_and!; [by right|by right; right|].
      eexists. split_and!; [done|done|quiet..].
Qed.



Lemma featureFlags_after_quiet (t : list effect) (ff : FeatureFlags) :
  no_ignore t → featureFlags_after t ff = ff.
Proof.
  unfold featureFlags_after, no_ignore. induction t as [|e t IH]; [done|].
  intros Hq. cbn [foldl].
  assert (match e with
          | Call ignoreWalletServiceFlag_call => ignoreWalletServiceFlag ff
          | _ => ff
          end = ff) as ->.
  { destruct e as [|[]| | | | | | | | | | | | |]; try done.
    exfalso. apply Hq. left. }
  apply IH. intros Hin. apply Hq. by right.
Qed.

Lemma saga_eta {A} (m : saga A) : m = (trace m, outcome m).
Proof. by destruct m. Qed.

Lemma clean_loading_true (t : list effect) :
  clean t → clean (Put (loadingAddresses true) :: t).
Proof. intros Ht. apply (clean_app [_]); [quiet|done]. Qed.

(** ** Counting *)

Lemma tally_app (p : effect → bool) (t1 t2 : list effect) :
  tally p (t1 ++ t2) = tally p t1 + tally p t2.
Proof. induction t1 as [|e t1 IH]; [done|]. cbn [app tally]. rewrite IH. lia. Qed.

Lemma tally_puts {A} (p : effect → bool) (f : A → action) (l : list A) :
  (∀ x, p (Put (f x)) = false) → tally p (Put ∘ f <$> l) = 0.
Proof.
  intros Hp. induction l as [|x l IH]; [done|].
  cbn [fmap list_fmap tally compose]. by rewrite Hp.
Qed.

Lemma tally_none (p : effect → bool) (t : list effect) :
  tally p t = 0 ↔ ∀ e, e ∈ t → p e = false.
Proof.
  induction t as [|e t IH]; cbn [tally].
  { split; [by intros _ e ?%elem_of_nil|done]. }
  split.
  - intros Hz e' [->|Hin]%elem_of_cons.
    + destruct (p e); [lia|done].
    + apply IH; [|done]. destruct (p e); lia.
  - intros Hall. rewrite (Hall e) by left. apply IH.
    intros e' Hin. apply Hall. by right.
Qed.

Lemma totals_app (t1 t2 : list effect) :
  totals (t1 ++ t2)
  = ((totals t1).1.1.1 + (totals t2).1.1.1, (totals t1).1.1.2 + (totals t2).1.1.2,
     (totals t1).1.2 + (totals t2).1.2, (totals t1).2 + (totals t2).2).
Proof. unfold totals. by rewrite !tally_app. Qed.

Lemma summary_prefix (t : list effect) (m : saga unit) :
  totals t = (0, 0, 0, 0) → summary (prefix t m) = summary m.
Proof.
  intros Ht. unfold summary, prefix. cbn [trace outcome fst snd].
  rewrite totals_app, Ht. by destruct (totals m.1) as [[[? ?] ?] ?].
Qed.

Lemma totals_loaded (stored : list Token) (allTokens : list tokenId) :
  totals (loaded htrUid stored allTokens) = (0, 0, 0, 0).
Proof.
  unfold totals, loaded. rewrite !tally_app, !tally_puts by done. done.
Qed.

Lemma totals_start_called (env : StartEnv) (payload : StartPayload) :
  totals (start_called env payload) = (0, 0, 0, 0).
Proof. unfold start_called. by destruct (isHardwareWallet env). Qed.

Lemma load_phase_summary (env : StartEnv) (payload : StartPayload) :
  summary (load_phase htrUid env payload) = start_summary (ending_after_ready env).
Proof.
  unfold load_phase, ending_after_ready.
  destruct (fetchTokenData env) as [[]|]; [|done].
  destruct (getTokens (facade env)) as [allTokens|]; [|done].
  unfold summary, prefix. cbn [trace outcome fst snd].
  rewrite !totals_app, totals_loaded.
  by destruct (parked_race env) as [[]|].
Qed.

Lemma ready_phase_summary (env : StartEnv) (payload : StartPayload) :
  summary (ready_phase htrUid env payload) = start_summary (ending_after_start env).
Proof.
  unfold ready_phase, ending_after_start.
  rewrite summary_prefix by done.
  destruct (isReady (facade env)); [apply load_phase_summary|].
  rewrite summary_prefix by done.
  destruct (readiness_race env) as [[]|]; [done|apply load_phase_summary|done].
Qed.

Lemma ending_Fell_back (env : StartEnv) :
  ending_of env = Fell_back ↔ falls_back env.
Proof.
  unfold ending_of, falls_back, ending_after_start, ending_after_ready.
  destruct (start (facade env)) as [?|], (resolve env);
    destruct (isReady (facade env)), (readiness_race env) as [[]|],
      (fetchTokenData env), (getTokens (facade env)),
      (parked_race env) as [[]|]; naive_solver.
Qed.

Lemma ending_Reloaded (env : StartEnv) :
  ending_of env = Reloaded → parked_race env = Some true.
Proof.
  unfold ending_of, ending_after_start, ending_after_ready.
  destruct (start (facade env)) as [?|], (resolve env);
    destruct (isReady (facade env)), (readiness_race env) as [[]|],
      (fetchTokenData env), (getTokens (facade env)),
      (parked_race env) as [[]|]; naive_solver.
Qed.

(** The summary of a start attempt. *)
Lemma startWallet_summary (env : StartEnv) (payload : StartPayload) :
  summary (startWallet htrUid env payload) = attempt_summary env payload.
Proof.
  rewrite startWallet_run, summary_prefix by apply totals_start_called.
  unfold start_tail, attempt_summary.
  destruct (routerHistory payload) as [[]|].
  - unfold start_phase, ending_of.
    destruct (start (facade env)) as [serverInfo|].
    + rewrite summary_prefix by (by destruct serverInfo).
      apply ready_phase_summary.
    + destruct (resolve env); [done|apply ready_phase_summary].
  - pose proof (ending_Fell_back env) as Hfb. unfold falls_back in Hfb.
    unfold unrouted_phase.
    destruct (start (facade env)) as [serverInfo|].
    + rewrite decide_False by (intros [_ ?]%Hfb; done). by destruct serverInfo.
    + destruct (resolve env).
      * by rewrite decide_True by (by apply Hfb).
      * by rewrite decide_False by (intros [? _]%Hfb; done).
Qed.


Lemma totals_reload_invalidated (stored : list Token) (allTokens : list tokenId)
    (uws : bool) :
  totals (reload_invalidated htrUid stored allTokens uws) = (0, 0, 0, 0).
Proof.
  unfold reload_invalidated, reload_waited.
  rewrite !totals_app, totals_loaded. unfold totals.
  rewrite !tally_puts by done. by destruct uws.
Qed.

(** The summary of a reload cycle is the one of its ending. *)
Lemma walletReloading_summary (env : ReloadEnv) (st : AppState) :
  summary (walletReloading htrUid env st) = reload_summary (reload_ending_of env st).
Proof.
  rewrite walletReloading_run. unfold reload_ending_of, reload_refreshed.
  destruct (negb (JS.truthy (state_useWalletService st))
            && bool_decide (reload_ready env = None)).
  { unfold reload_waited. by destruct (JS.truthy (state_useWalletService st)). }
  destruct (reload_fetchTokenData env) as [[]|];
    [|unfold reload_waited; by destruct (JS.truthy (state_useWalletService st))].
  destruct (getTokens (state_wallet st)) as [allTokens|];
    [|unfold reload_waited; by destruct (JS.truthy (state_useWalletService st))].
  cbn zeta. unfold summary, trace, outcome.
  destruct (JS.truthy (state_useWalletService st)
            && bool_decide (getNewAddresses (state_wallet st) = None)).
  { cbn [fst snd]. by rewrite totals_app, totals_reload_invalidated. }
  destruct (state_routerHistory st); cbn [fst snd];
    rewrite !totals_app, totals_reload_invalidated;
    by destruct (JS.truthy (state_useWalletService st)).
Qed.


(** C3, as the code has it.  In a start attempt that reached the
    readiness wait (so one that did not fall back and whose request
    carries a router history), a readiness error and an exception of the
    token loader both end the attempt with the Failed status followed by
    the cancellation of the thread group, and nothing else: no
    re-dispatch of the start request, no reload request.  An exception of
    the token loader during a reload cycle ends the cycle with the Failed
    status and no retry either, but the reload handler never cancels the
    thread group. *)
Theorem C3_terminal_failures :
  (∀ env payload,
     ¬ falls_back env → routerHistory payload = Some tt →
     readiness_error env ∨
     (readiness_passed env ∧ loader_raises (fetchTokenData env) (facade env)) →
     ∃ before,
       startWallet htrUid env payload
         = (before ++ [Put startWalletFailed; Cancel_threads], Ret tt) ∧
       clean before) ∧
  (∀ env st,
     reload_wait_passed env st →
     loader_raises (reload_fetchTokenData env) (state_wallet st) →
     ∃ before,
       walletReloading htrUid env st = (before ++ [Put startWalletFailed], Ret tt) ∧
       clean before ∧
       Cancel_threads ∉ trace (walletReloading htrUid env st)).
Proof.
  split.
  - intros env payload Hnf Hrh Hcond.
    destruct (startWallet_cases env payload Hrh) as (rest & Hrun & Hcases).
    destruct Hcases
      as [(Hf & _)|[(_ & Hr & Hrace & _)
         |[(_ & _ & before & -> & Hout & Hc & _)|(_ & Hp & Hok & _)]]].
    + done.
    + exfalso. unfold readiness_error, readiness_passed in Hcond.
      destruct Hcond as [[_ ?]|[[?|?] _]]; congruence.
    + exists (Put (loadingAddresses true) :: before).
      split; [|by apply clean_loading_true].
      rewrite (saga_eta (startWallet htrUid env payload)), Hrun, Hout. done.
    + exfalso. unfold readiness_error, readiness_passed in *.
      destruct Hcond as [[? ?]|[_ ?]]; [|done].
      destruct Hp; congruence.
  - intros env st Hpassed Hraises.
    destruct (walletReloading_cases env st) as (rest & Hrun & Hcases).
    destruct Hcases
      as [(Hnp & _)|[(_ & _ & before & -> & Hout & Hc & _)|(_ & Hok & _)]].
    + done.
    + exists (Put (loadingAddresses true) :: before).
      split_and!; [|by apply clean_loading_true|].
      * rewrite (saga_eta (walletReloading htrUid env st)), Hrun, Hout. done.
      * rewrite Hrun. destruct Hc as (_ & Hcancel & _). clear -Hcancel. in_trace.
    + exfalso. apply Hok. by left.
Qed.






Lemma featureFlags_after_app (t1 t2 : list effect) (ff : FeatureFlags) :
  featureFlags_after (t1 ++ t2) ff
  = featureFlags_after t2 (featureFlags_after t1 ff).
Proof. unfold featureFlags_after. apply foldl_app. Qed.

Lemma resolve_ignored (env : StartEnv) :
  ignoreFlag (featureFlags env) = true → resolve env = false.
Proof.
  intros Hi. unfold resolve, shouldUseWalletService. rewrite Hi.
  by destruct (isHardwareWallet env).
Qed.

(** A start attempt on the local facade never records the "ignore remote
    service" decision. *)
Lemma local_attempt_no_ignore (env : StartEnv) (payload : StartPayload) :
  resolve env = false →
  no_ignore (trace (startWallet htrUid env payload)).
Proof.
  intros Hres.
  destruct (routerHistory payload) as [[]|] eqn:Hrh.
  - destruct (startWallet_cases env payload Hrh) as (rest & -> & Hcases).
    assert (no_ignore rest) as Hrest.
    { destruct Hcases
        as [([? _] & _)|[(_ & _ & _ & _ & _ & _ & Hi)
           |[(_ & _ & before & -> & _ & _ & _ & Hi)
            |(_ & _ & _ & all & before & after & -> & _ & _ & Hi & _ & _ & Hia & _)]]].
      - congruence.
      - done.
      - apply no_ignore_app; [done|]. clear. unfold no_ignore. in_trace.
      - apply no_ignore_app; [done|].
        apply (no_ignore_app [_]); [|done]. clear. unfold no_ignore. in_trace. }
    apply (no_ignore_app [_]); [|done]. clear. unfold no_ignore. in_trace.
  - assert (¬ falls_back env) as Hnf by (intros [? _]; congruence).
    destruct (startWallet_unrouted env payload Hrh Hnf)
      as (info & -> & _ & _ & _ & Hi).
    cbn [trace fst]. apply no_ignore_app; [|done].
    destruct (start_called_head env payload) as (sc & -> & _ & _ & Hsc & _).
    apply (no_ignore_app [_]); [|done]. clear. unfold no_ignore. in_trace.
Qed.

(** C2, as the code has it.  When the start call of the facade raises on
    the remote-service facade, the attempt records the "ignore remote
    service" decision, then cancels the thread group, then puts the
    original start request, once and as its last effect, and returns; the
    restarted attempt resolves to the local facade and never falls back
    again.  When the call raises on the local facade, the same handler
    swallows the exception: nothing is recorded, cancelled or
    re-dispatched for it, and the attempt goes straight on to the redirect
    to the loading screen.  With a router history in the request the
    redirect is made, the readiness check follows and no error reaches
    the caller; with none, the attempt ends there on the error of the
    redirect, not on the one of the start call. *)
Theorem C2_start_failure_fallback (env : StartEnv) (payload : StartPayload) :
  start (facade env) = None →
  let run := startWallet htrUid env payload in
  (resolve env = true →
     run = (start_called env payload
            ++ [Call ignoreWalletServiceFlag_call; Cancel_threads;
                Put (START_WALLET_REQUESTED payload)], Ret tt) ∧
     no_ignore (start_called env payload) ∧
     (Cancel_threads ∉ start_called env payload) ∧
     (∀ p, Put (START_WALLET_REQUESTED p) ∉ start_called env payload) ∧
     ignoreFlag (featureFlags_after (trace run) (featureFlags env)) = true ∧
     ∀ env',
       featureFlags env' = featureFlags_after (trace run) (featureFlags env) →
       resolve env' = false ∧
       new_wallet false ∈ trace (startWallet htrUid env' payload) ∧
       no_ignore (trace (startWallet htrUid env' payload))) ∧
  (resolve env = false →
     no_ignore (trace run) ∧
     (routerHistory payload = Some tt →
        outcome run ≠ Throw ∧
        ∃ rest, trace run
                = start_called env payload
                  ++ routerHistory_replace "/loading_addresses" :: rest) ∧
     (routerHistory payload = None →
        run = (start_called env payload, Throw))).
Proof.
  intros Hstart run.
  destruct (start_called_head env payload)
    as (sc & Hsc & (_ & Hcancel & _ & Hre & _) & _ & Hi & _).
  assert (no_ignore (start_called env payload)) as Hisc.
  { rewrite Hsc. apply (no_ignore_app [_]); [|done].
    clear. unfold no_ignore. in_trace. }
  split.
  - intros Hres.
    assert (run = (start_called env payload
                   ++ [Call ignoreWalletServiceFlag_call; Cancel_threads;
                       Put (START_WALLET_REQUESTED payload)], Ret tt)) as Hrun.
    { unfold run. by rewrite startWallet_fallback. }
    assert (ignoreFlag (featureFlags_after (trace run) (featureFlags env)) = true)
      as Hflag.
    { rewrite Hrun. cbn [trace fst].
      rewrite featureFlags_after_app.
      by rewrite (featureFlags_after_quiet (start_called env payload)). }
    split_and!; [done|done| | |done|].
    + rewrite Hsc. clear -Hcancel. in_trace.
    + intros p. specialize (Hre p). rewrite Hsc. clear -Hre. in_trace.
    + intros env' Hff. rewrite <- Hff in Hflag.
      pose proof (resolve_ignored env' Hflag) as Hres'.
      split_and!; [done| |by apply local_attempt_no_ignore].
      rewrite startWallet_run. unfold prefix. cbn [trace fst].
      destruct (start_called_head env' payload)
        as (sc' & -> & _ & _ & _ & Hnew).
      rewrite Hres' in Hnew. clear -Hnew. in_trace.
  - intros Hres. split_and!.
    + by apply local_attempt_no_ignore.
    + intros Hrh. split.
      * destruct (startWallet_cases env payload Hrh) as (rest & _ & Hcases).
        fold run in Hcases. destruct Hcases
          as [([? _] & _)|[(_ & _ & _ & -> & _)
             |[(_ & _ & before & _ & -> & _)|(_ & _ & _ & all & before & after
                & _ & _ & _ & _ & _ & _ & _ & _ & Hout)]]];
          [congruence|done|done|done].
      * unfold run. rewrite startWallet_routed by done. unfold start_phase.
        rewrite Hstart, Hres.
        destruct (ready_phase_cases env payload) as (rest & Hr & _).
        exists rest. unfold prefix, trace in *. cbn [fst]. by rewrite Hr.
    + intros Hrh. unfold run. rewrite startWallet_run.
      unfold start_tail, unrouted_phase, prefix. rewrite Hrh, Hstart, Hres.
      cbn [trace outcome fst snd]. by rewrite app_nil_r.
Qed.

Lemma invalidations_Put (f : tokenId → action) (l : list tokenId) :
  (∀ t, match f t with tokenInvalidateHistory _ => False | _ => True end) →
  invalidations (Put ∘ f <$> l) = [].
Proof.
  intros Hf. unfold invalidations, puts.
  induction l as [|t l IH]; [done|]. cbn. specialize (Hf t).
  by destruct (f t).
Qed.

Lemma invalidations_app (t1 t2 : list effect) :
  invalidations (t1 ++ t2) = invalidations t1 ++ invalidations t2.
Proof. unfold invalidations. by rewrite puts_app, omap_app. Qed.

Lemma invalidations_invalidate (l : list tokenId) :
  invalidations (Put ∘ tokenInvalidateHistory <$> l) = l.
Proof.
  unfold invalidations, puts. induction l as [|t l IH]; [done|].
  cbn. by f_equal.
Qed.

Lemma invalidations_invalidated (stored : list Token) (allTokens : list tokenId)
    (uws : bool) :
  invalidations (reload_invalidated htrUid stored allTokens uws)
  = filter (λ t, t ≠ htrUid) allTokens.
Proof.
  unfold reload_invalidated, reload_waited, loaded.
  rewrite !invalidations_app, invalidations_invalidate.
  rewrite invalidations_Put by done. by destruct uws.
Qed.

(** C9. A reload cycle on the local facade forks a fresh readiness
    watcher and waits for the ready message, going no further while none
    arrives; on the remote service it neither forks nor waits.  Once the
    token loader has returned the refreshed tokens, the cycle puts one
    history invalidation per entry other than the base-currency token, in
    order (hence exactly one per token of a duplicate-free set), and none
    for the base-currency token; it then calls the facade's address
    refresh exactly when on the remote service, and, when nothing fails,
    ends with the shared-address refresh request, the load-success
    status, the redirect and the lowering of the loading flag. *)
Theorem C9_reload_cycle (env : ReloadEnv) (st : AppState)
    (allTokens : list tokenId) :
  let uws := JS.truthy (state_useWalletService st) in
  let wallet := state_wallet st in
  let run := walletReloading htrUid env st in
  (uws = false → reload_ready env = None →
     run = ([Put (loadingAddresses true); Fork listenForWalletReady_task;
             Take WALLET_STATE_READY], Block)) ∧
  ((uws = false → reload_ready env = Some tt) →
   reload_fetchTokenData env = Some tt →
   getTokens wallet = Some allTokens →
     (∃ rest,
        trace run
          = (Put (loadingAddresses true)
             :: (if uws then []
                 else [Fork listenForWalletReady_task; Take WALLET_STATE_READY]))
            ++ loaded htrUid (reload_stored_tokens env) allTokens
            ++ (Put ∘ tokenInvalidateHistory <$> filter (λ t, t ≠ htrUid) allTokens)
            ++ rest ∧
        invalidations rest = [] ∧
        (Fork listenForWalletReady_task ∉ rest) ∧
        (Take WALLET_STATE_READY ∉ rest) ∧
        (Call wallet_getNewAddresses_call ∈ rest ↔ uws = true)) ∧
     invalidations (trace run) = filter (λ t, t ≠ htrUid) allTokens ∧
     (htrUid ∉ invalidations (trace run)) ∧
     (∀ t, t ≠ htrUid → (t ∈ invalidations (trace run) ↔ t ∈ allTokens)) ∧
     (NoDup allTokens → NoDup (invalidations (trace run))) ∧
     (Fork listenForWalletReady_task ∈ trace run ↔ uws = false) ∧
     (Take WALLET_STATE_READY ∈ trace run ↔ uws = false) ∧
     (Call wallet_getNewAddresses_call ∈ trace run ↔ uws = true) ∧
     ((uws = true → getNewAddresses wallet = Some tt) →
      state_routerHistory st = Some tt →
        run = (reload_invalidated htrUid (reload_stored_tokens env) allTokens uws
               ++ (if uws then [Call wallet_getNewAddresses_call] else [])
               ++ [Put walletRefreshSharedAddress;
                   Put (loadWalletSuccess allTokens);
                   routerHistory_replace "/wallet/";
                   Put (loadingAddresses false)], Ret tt))).
Proof.
  intros uws wallet run. split.
  - intros Huws Hready. unfold run. rewrite walletReloading_run.
    fold uws. by rewrite Huws, Hready.
  - intros Hready Hfetch Htokens.
    assert (∃ rest,
              (trace run
               = reload_invalidated htrUid (reload_stored_tokens env) allTokens uws
                 ++ rest) ∧
              invalidations rest = [] ∧
              (Fork listenForWalletReady_task ∉ rest) ∧
              (Take WALLET_STATE_READY ∉ rest) ∧
              (Call wallet_getNewAddresses_call ∈ rest ↔ uws = true) ∧
              ((uws = true → getNewAddresses wallet = Some tt) →
               state_routerHistory st = Some tt →
               outcome run = Ret tt ∧
               rest = (if uws then [Call wallet_getNewAddresses_call] else [])
                      ++ [Put walletRefreshSharedAddress;
                          Put (loadWalletSuccess allTokens);
                          routerHistory_replace "/wallet/";
                          Put (loadingAddresses false)]))
      as (rest & Hrun & Hinv & Hfork & Htake & Hcall & Hok).
    { unfold run. rewrite walletReloading_run. fold uws wallet.
      rewrite Hfetch, Htokens. unfold reload_refreshed. clearbody uws wallet.
      clear run Hfetch Htokens.
      destruct uws eqn:Huws; cbn [negb andb];
        [destruct (getNewAddresses wallet) as [[]|]; cbn [bool_decide andb]
        |rewrite Hready by done];
        rewrite ?(bool_decide_eq_false_2 (_ = None)) by done;
        rewrite ?(bool_decide_eq_true_2 (_ = None)) by done;
        cbn [andb];
        try destruct (state_routerHistory st) as [[]|];
        clear Hready;
        eexists; (split; [reflexivity|]); (split; [reflexivity|]);
        (split; [clear; in_trace|]); (split; [clear; in_trace|]);
        (split; [clear; in_trace|]);
        intros H1 H2; try specialize (H1 eq_refl); by try discriminate. }
    clearbody run. destruct run as [t o].
    unfold trace, outcome in *. cbn [fst snd] in *. subst t.
    assert (invalidations
              (reload_invalidated htrUid (reload_stored_tokens env) allTokens uws
               ++ rest) = filter (λ t, t ≠ htrUid) allTokens) as Hi.
    { by rewrite invalidations_app, Hinv, invalidations_invalidated, app_nil_r. }
    rewrite Hi. clear Hi.
    split_and!.
    + exists rest. unfold reload_invalidated, reload_waited.
      split_and!; [by rewrite <- !app_assoc|done..].
    + done.
    + rewrite list_elem_of_filter. by intros [? _].
    + intros t Ht. rewrite list_elem_of_filter. tauto.
    + intros ?. by apply NoDup_filter.
    + unfold reload_invalidated, reload_waited, loaded.
      clear -Hfork. destruct uws; in_trace.
    + unfold reload_invalidated, reload_waited, loaded.
      clear -Htake. destruct uws; in_trace.
    + unfold reload_invalidated, reload_waited, loaded.
      clear -Hcall. destruct uws; in_trace.
    + intros H1 H2. by destruct (Hok H1 H2) as [-> ->].
Qed.
End Lifecycle.

(** * Instances on sample inputs *)

(** C1 on a world with an earlier listener: after the fork and the
    cancellation the wallet carries, besides that listener, the four the
    thread group installed. *)
Lemma C1_witness :
  allocated sample_world ∧
  (cancel (fork_threads "wallet-service-enabled" sample_world).1
          (fork_threads "wallet-service-enabled" sample_world).2).2
  = (fork_threads "wallet-service-enabled" sample_world).2 ∧
  wallet_listeners (fork_threads "wallet-service-enabled" sample_world).2
  = [("state", 0); ("reload-data", 5); ("update-tx", 6); ("new-tx", 7);
     ("state", 9)].
Proof.
  assert (allocated sample_world) as Hw.
  { intros r Hr. vm_compute in Hr. apply list_elem_of_singleton in Hr as ->.
    vm_compute. lia. }
  split; [exact Hw|].
  pose proof (C1_cancel_leaves_listeners "wallet-service-enabled" sample_world Hw)
    as (Hwallet & _ & _ & Hsame & _).
  split; [exact Hsame|exact Hwallet].
Defined.

(** C2 on a software wallet with the remote service enabled: the failed
    start falls back, and the restarted attempt is local; restarted without
    router history, it ends on the error of the redirect. *)
Lemma C2_witness :
  start (facade remote_env) = None ∧
  resolve remote_env = true ∧
  startWallet HTR remote_env sample_payload
  = (start_called remote_env sample_payload
     ++ [Call ignoreWalletServiceFlag_call; Cancel_threads;
         Put (START_WALLET_REQUESTED sample_payload)], Ret tt) ∧
  resolve local_env = false ∧
  start (facade local_env) = None ∧
  routerHistory unrouted_payload = None ∧
  startWallet HTR local_env unrouted_payload
  = (start_called local_env unrouted_payload, Throw).
Proof.
  pose proof (C2_start_failure_fallback HTR remote_env sample_payload eq_refl)
    as [Hremote _].
  destruct (Hremote eq_refl) as (Hrun & _ & _ & _ & _ & Hnext).
  destruct (Hnext local_env eq_refl) as (Hlocal & _).
  pose proof (C2_start_failure_fallback HTR local_env unrouted_payload eq_refl)
    as [_ Hswallowed].
  destruct (Hswallowed eq_refl) as (_ & _ & Hnone).
  split_and!; [reflexivity|reflexivity|exact Hrun|exact Hlocal|reflexivity
              |reflexivity|exact (Hnone eq_refl)].
Defined.

(** The start call raises on the local facade, and the attempt carries on:
    it loads the tokens, reports success and parks. *)
Lemma C2_local_failure_swallowed :
  resolve local_env = false ∧
  start (facade local_env) = None ∧
  outcome (startWallet HTR local_env sample_payload) = Block ∧
  Put (loadWalletSuccess [HTR; "X"])
    ∈ trace (startWallet HTR local_env sample_payload).
Proof.
  split_and!; [reflexivity..|].
  apply (bool_decide_unpack _). vm_compute. exact I.
Qed.

(** C3 on a local start whose readiness wait ends on the error message. *)
Lemma C3_witness :
  ¬ falls_back erroring_env ∧
  routerHistory sample_payload = Some tt ∧
  readiness_error erroring_env ∧
  ∃ before,
    startWallet HTR erroring_env sample_payload
    = (before ++ [Put startWalletFailed; Cancel_threads], Ret tt) ∧
    clean before.
Proof.
  assert (¬ falls_back erroring_env) as Hnf.
  { intros [Hres _]. vm_compute in Hres. discriminate Hres. }
  assert (readiness_error erroring_env) as He by (split; reflexivity).
  split_and!; [exact Hnf|reflexivity|exact He|].
  exact (proj1 (C3_terminal_failures HTR) erroring_env sample_payload Hnf
               eq_refl (or_introl He)).
Defined.

(** The token loader raises during a reload: the Failed status is put and
    the thread group is not cancelled. *)
Lemma C3_reload_failure_keeps_threads :
  reload_wait_passed sample_reload tokenless_state ∧
  loader_raises (reload_fetchTokenData sample_reload)
                (state_wallet tokenless_state) ∧
  Put startWalletFailed
    ∈ trace (walletReloading HTR sample_reload tokenless_state) ∧
  Cancel_threads ∉ trace (walletReloading HTR sample_reload tokenless_state).
Proof.
  split_and!.
  - by left.
  - by right.
  - apply (bool_decide_unpack _). vm_compute. exact I.
  - apply (bool_decide_unpack _). vm_compute. exact I.
Qed.



(** C7 on a transaction over the base-currency token and X with only X
    registered: the refetch requests are for X only. *)
Lemma C7_witness :
  isReady (state_wallet sample_state) = true ∧
  balance_requests (trace (handleTx (λ _, false) sample_state sample_tx))
  = [("X", Some true)] ∧
  history_requests (trace (handleTx (λ _, false) sample_state sample_tx))
  = [("X", Some true)].
Proof.
  destruct (proj2 (C7_handleTx_refetch (λ _, false) sample_state sample_tx) eq_refl)
    as (_ & _ & _ & _ & _ & _ & Hbalance & Hhistory).
  split_and!; [reflexivity|exact Hbalance|exact Hhistory].
Defined.

(** C8 on a best-block message with a new height. *)
Lemma C8_witness :
  isReady (state_wallet sample_state) = true ∧
  JS.Num 11 ≠ state_height sample_state ∧
  balance_requests (trace (bestBlockUpdate HTR sample_state (JS.Num 11)))
  = [(HTR, None)].
Proof.
  assert (JS.Num 11 ≠ state_height sample_state) as Hne by discriminate.
  split_and!; [reflexivity|exact Hne|].
  exact (proj1 (proj2 (proj2 (C8_bestBlockUpdate_height HTR sample_state (JS.Num 11)))
                 eq_refl Hne)).
Defined.

(** C9 on a reload over the base-currency token and X on the remote
    service: one invalidation, for X. *)
Lemma C9_witness :
  reload_fetchTokenData sample_reload = Some tt ∧
  getTokens (state_wallet sample_state) = Some [HTR; "X"] ∧
  invalidations (trace (walletReloading HTR sample_reload sample_state)) = ["X"] ∧
  Fork listenForWalletReady_task
    ∉ trace (walletReloading HTR sample_reload sample_state).
Proof.
  destruct (proj2 (C9_reload_cycle HTR sample_reload sample_state [HTR; "X"])
              (λ _, eq_refl) eq_refl eq_refl)
    as (_ & Hinv & _ & _ & _ & Hfork & _).
  split_and!; [reflexivity|reflexivity|exact Hinv|].
  intros Hin. apply Hfork in Hin. discriminate Hin.
Defined.




(** * Further properties *)

(** ** [loadTokens] *)

Section Loader.

Variable htrUid : tokenId.

Lemma registered_uids_from (stored : list Token) (acc : list tokenId) :
  foldl (λ acc token, if decide (uid token = htrUid) then acc
                      else acc ++ [uid token]) acc stored
  = acc ++ filter (λ u, u ≠ htrUid) (uid <$> stored).
Proof.
  revert acc. induction stored as [|token stored IH]; intros acc.
  { by rewrite app_nil_r. }
  cbn [foldl fmap list_fmap]. rewrite IH, filter_cons.
  destruct (decide (uid token = htrUid)) as [Heq|Hne].
  - by rewrite decide_False by (intros ?; done).
  - rewrite decide_True by done. by rewrite <- app_assoc.
Qed.

Lemma registered_uids_filter (stored : list Token) :
  registered_uids htrUid stored = filter (λ u, u ≠ htrUid) (uid <$> stored).
Proof. unfold registered_uids. by rewrite registered_uids_from. Qed.

(** X1. The registered list [loadTokens] computes is the list of the
    stored tokens' identifiers without the base-currency one: same order,
    same multiplicities, and the base-currency identifier never in it. *)
Theorem X1_registered_uids (stored : list Token) :
  registered_uids htrUid stored = filter (λ u, u ≠ htrUid) (uid <$> stored) ∧
  (htrUid ∉ registered_uids htrUid stored) ∧
  (∀ u, u ∈ registered_uids htrUid stored ↔
        u ≠ htrUid ∧ ∃ token, token ∈ stored ∧ uid token = u) ∧
  length (registered_uids htrUid stored) ≤ length stored.
Proof.
  rewrite registered_uids_filter. split_and!.
  - done.
  - rewrite list_elem_of_filter. by intros [? _].
  - intros u. rewrite list_elem_of_filter, list_elem_of_fmap. naive_solver.
  - etrans; [apply length_filter|]. by rewrite length_fmap.
Qed.

(** X2. A [loadTokens] whose two calls return spawns the metadata task
    once, for the registered tokens other than the base-currency one, and
    only then puts one unforced balance request per token the facade
    lists, in the facade's order, the base-currency token and unregistered
    tokens included; it puts nothing else and returns both lists. *)
Theorem X2_loadTokens_requests (fetch : option unit) (wallet : Wallet)
    (stored : list Token) (allTokens : list tokenId) :
  fetch = Some tt → getTokens wallet = Some allTokens →
  let run := loadTokens htrUid fetch wallet stored in
  outcome run
  = Ret (allTokens, filter (λ u, u ≠ htrUid) (uid <$> stored)) ∧
  trace run
  = [Call (fetchTokenData_call htrUid); Call wallet_getTokens_call;
     Spawn (fetchTokensMetadata_task
              (filter (λ u, u ≠ htrUid) (uid <$> stored)))]
    ++ (Put ∘ (λ t, tokenFetchBalanceRequested t None) <$> allTokens) ∧
  puts (trace run) = (λ t, tokenFetchBalanceRequested t None) <$> allTokens ∧
  balance_requests (trace run) = (λ t, (t, None)) <$> allTokens ∧
  tally is_spawn (trace run) = 1.
Proof.
  intros -> Htokens run. unfold run. rewrite loadTokens_run, Htokens.
  unfold loaded. rewrite !registered_uids_filter. cbn [trace outcome fst snd].
  assert (puts (Put ∘ (λ t, tokenFetchBalanceRequested t None) <$> allTokens)
          = (λ t, tokenFetchBalanceRequested t None) <$> allTokens) as Hputs.
  { by rewrite list_fmap_compose, puts_Put. }
  split_and!.
  - done.
  - done.
  - by rewrite puts_app, Hputs.
  - unfold balance_requests. rewrite puts_app, Hputs. cbn [puts omap app].
    clear. induction allTokens as [|t l IH]; [done|]. cbn. by f_equal.
  - rewrite tally_app, tally_puts by done. done.
Qed.

(** X3. A [loadTokens] that raises leaves nothing behind: no action is
    put and the metadata task is not spawned; when the base-currency fetch
    is what raises, the facade is not even asked for its tokens. *)
Theorem X3_loadTokens_failure (fetch : option unit) (wallet : Wallet)
    (stored : list Token) :
  loader_raises fetch wallet →
  let run := loadTokens htrUid fetch wallet stored in
  outcome run = Throw ∧
  puts (trace run) = [] ∧
  tally is_spawn (trace run) = 0 ∧
  (fetch = None → trace run = [Call (fetchTokenData_call htrUid)]).
Proof.
  intros Hraises run. unfold run. rewrite loadTokens_run.
  destruct fetch as [[]|].
  - destruct Hraises as [?|Hnone]; [done|]. by rewrite Hnone.
  - done.
Qed.

End Loader.

(** ** Start attempts *)

Section Starts.

Variable htrUid : tokenId.

(** X4. A start attempt that returns has cancelled the thread group
    exactly once, on whichever path it returned; an attempt that is
    suspended (in the readiness race or parked after loading) has not
    cancelled it.  The only other way an attempt ends is on the error of
    its first redirect, when it does not fall back and its request
    carries no router history: it has then cancelled nothing, and stops
    right after the start call and the server information.  An exception
    of the start call or of the token loader never escapes the attempt. *)
Theorem X4_startWallet_cancels_once (env : StartEnv) (payload : StartPayload) :
  let run := startWallet htrUid env payload in
  (outcome run = Ret tt ∧ tally is_cancel (trace run) = 1) ∨
  (outcome run = Block ∧ tally is_cancel (trace run) = 0 ∧
   routerHistory payload = Some tt ∧
   (ending_of env = Waiting_ready ∨ ending_of env = Parked)) ∨
  (outcome run = Throw ∧ tally is_cancel (trace run) = 0 ∧
   routerHistory payload = None ∧ ¬ falls_back env ∧
   ∃ info,
     run = (start_called env payload ++ info, Throw) ∧
     ((info = [] ∧ start (facade env) = None) ∨
      ∃ v n, info = [Put (setServerInfo v n)])).
Proof.
  intros run. subst run.
  pose proof (startWallet_summary htrUid env payload) as Hs.
  unfold summary, totals, attempt_summary in Hs.
  destruct (routerHistory payload) as [[]|] eqn:Hrh.
  - destruct (ending_of env); cbn [start_summary] in Hs;
      injection Hs as _ _ Hc _ Ho; rewrite Hc, Ho;
      first [by left|right; left; split_and!; [done..|]; eauto].
  - destruct (decide (ending_of env = Fell_back)) as [He|He];
      cbn [start_summary] in Hs; injection Hs as _ _ Hc _ Ho; rewrite Hc, Ho.
    + by left.
    + right. right.
      assert (¬ falls_back env) as Hnf by (by intros ?%ending_Fell_back).
      destruct (startWallet_unrouted htrUid env payload Hrh Hnf)
        as (info & Hrun & Hinfo & _).
      split_and!; [done..|]. by exists info.
Qed.

(** X5. A start attempt reports at most one verdict: it never puts both
    the Failed status and the load-success status, and neither twice.  It
    re-dispatches its start request at most once, and only when it fell
    back from the remote service or when, after a successful load, a
    reload was requested; an attempt that failed never re-dispatches. *)
Theorem X5_startWallet_one_verdict (env : StartEnv) (payload : StartPayload) :
  let t := trace (startWallet htrUid env payload) in
  tally is_failed t + tally is_success t ≤ 1 ∧
  tally is_restart t ≤ 1 ∧
  (tally is_restart t = 1 →
     falls_back env ∨ (tally is_success t = 1 ∧ parked_race env = Some true)) ∧
  (tally is_failed t = 1 → tally is_restart t = 0).
Proof.
  intros t. subst t.
  pose proof (startWallet_summary htrUid env payload) as Hs.
  unfold summary, totals, attempt_summary in Hs.
  pose proof (ending_Fell_back env) as Hfb.
  pose proof (ending_Reloaded env) as Hre.
  destruct (routerHistory payload) as [[]|].
  - destruct (ending_of env); cbn [start_summary] in Hs;
      injection Hs as Hf Hsu _ Hr _;
      rewrite Hf, Hsu, Hr; split_and!; try lia; try done.
    + intros _. left. by apply Hfb.
    + intros _. right. split; [done|]. by apply Hre.
  - destruct (decide (ending_of env = Fell_back)) as [He|He];
      cbn [start_summary] in Hs; injection Hs as Hf Hsu _ Hr _;
      rewrite Hf, Hsu, Hr; split_and!; try lia; try done.
    intros _. left. by apply Hfb.
Qed.

Lemma tally_start_tail (p : effect → bool) (env : StartEnv) (payload : StartPayload) :
  (∀ e, after_start_call e = true → p e = false) →
  tally p (trace (start_tail htrUid env payload)) = 0.
Proof.
  intros Hp. apply tally_none. intros e He. apply Hp. revert e He.
  apply Forall_forall. unfold start_tail.
  destruct (routerHistory payload) as [[]|].
  2: { unfold unrouted_phase, start_fallback.
       destruct (start (facade env)) as [[]|]; [| |destruct (resolve env)];
         repeat constructor. }
  assert (∀ stored allTokens,
            Forall (λ e, after_start_call e = true) (loaded htrUid stored allTokens))
    as Hloaded.
  { intros stored allTokens. unfold loaded. apply Forall_app. split.
    - repeat constructor.
    - apply Forall_fmap, Forall_true. done. }
  assert (Forall (λ e, after_start_call e = true)
                 (trace (load_phase htrUid env payload))) as Hload.
  { unfold load_phase.
    destruct (fetchTokenData env) as [[]|]; [|repeat constructor].
    destruct (getTokens (facade env)) as [allTokens|]; [|repeat constructor].
    unfold prefix. cbn [trace outcome fst snd]. rewrite !Forall_app.
    split_and!; [apply Hloaded|repeat constructor|].
    destruct (parked_race env) as [[]|]; repeat constructor. }
  assert (Forall (λ e, after_start_call e = true)
                 (trace (ready_phase htrUid env payload))) as Hready.
  { unfold ready_phase, prefix. cbn [trace outcome fst snd].
    apply Forall_cons. split; [done|].
    destruct (isReady (facade env)); [done|]. cbn [fst snd].
    apply Forall_cons. split; [done|].
    destruct (readiness_race env) as [[]|]; [repeat constructor|done|constructor]. }
  unfold start_phase.
  destruct (start (facade env)) as [serverInfo|].
  - unfold prefix. cbn [trace fst]. apply Forall_cons. split; [|done].
    by destruct serverInfo.
  - destruct (resolve env); [repeat constructor|done].
Qed.

(** X6. In every start attempt the three listener sagas are forked one
    after the other, right after the facade is published and right before
    the start call, and these are the only forks and the only start call
    of the attempt: the listeners are always in place when the facade
    starts. *)
Theorem X6_startWallet_listeners_first (env : StartEnv) (payload : StartPayload) :
  ∃ pre post,
    trace (startWallet htrUid env payload)
    = (pre ++ [Put (setWallet (resolve env))])
      ++ [Fork setupWalletListeners_task; Fork listenForWalletReady_task;
          Fork listenForFeatureFlags_task;
          Call (wallet_start_call (pin payload) (password payload))]
      ++ post ∧
    tally is_fork pre = 0 ∧ tally is_start_call pre = 0 ∧
    tally is_fork post = 0 ∧ tally is_start_call post = 0.
Proof.
  rewrite startWallet_run. unfold prefix. cbn [trace fst].
  exists ([Put (loadingAddresses true);
           Put (storeRouterHistory (routerHistory payload));
           unlock; Put (reloadData (stored_tokens env)); Put (isOnlineUpdate false)]
          ++ (if isHardwareWallet env then [] else [Call shouldUseWalletService_call])
          ++ [Put (setUseWalletService (resolve env)); Put dispatchGrabber;
              cleanLoadedData (negb (fromXpriv payload)); new_wallet (resolve env)]),
         (trace (start_tail htrUid env payload)).
  split_and!.
  - unfold start_called. destruct (isHardwareWallet env); reflexivity.
  - by destruct (isHardwareWallet env).
  - by destruct (isHardwareWallet env).
  - by apply tally_start_tail; intros [[]|[]| | | | | | | | | | | | |].
  - by apply tally_start_tail; intros [[]|[]| | | | | | | | | | | | |].
Qed.

(** X7. In every start attempt the registered tokens are saved to the
    store and the connection is marked offline before the loaded data is
    cleaned and the facade is built; the cleaning keeps the access data
    exactly when the wallet is started from an xpriv, and cleaning and
    building happen once each. *)
Theorem X7_startWallet_saves_tokens_first (env : StartEnv) (payload : StartPayload) :
  ∃ between post,
    trace (startWallet htrUid env payload)
    = [Put (loadingAddresses true);
       Put (storeRouterHistory (routerHistory payload)); unlock;
       Put (reloadData (stored_tokens env)); Put (isOnlineUpdate false)]
      ++ between
      ++ [cleanLoadedData (negb (fromXpriv payload)); new_wallet (resolve env)]
      ++ post ∧
    tally is_wallet_setup between = 0 ∧ tally is_wallet_setup post = 0.
Proof.
  rewrite startWallet_run. unfold prefix. cbn [trace fst].
  exists ((if isHardwareWallet env then [] else [Call shouldUseWalletService_call])
          ++ [Put (setUseWalletService (resolve env)); Put dispatchGrabber]),
         ([Put (setWallet (resolve env));
           Fork setupWalletListeners_task; Fork listenForWalletReady_task;
           Fork listenForFeatureFlags_task;
           Call (wallet_start_call (pin payload) (password payload))]
          ++ trace (start_tail htrUid env payload)).
  split_and!.
  - unfold start_called. destruct (isHardwareWallet env); reflexivity.
  - by destruct (isHardwareWallet env).
  - rewrite tally_app. cbn.
    by apply tally_start_tail; intros [[]|[]| | | | | | | | | | | | |].
Qed.

(** X8. A hardware wallet is always started on the local facade: the
    feature flag is not queried, the attempt never falls back and never
    records the "ignore remote service" decision.  A software wallet
    queries the flag exactly once and builds the facade the answer
    selects. *)
Theorem X8_startWallet_backend_choice (env : StartEnv) (payload : StartPayload) :
  let t := trace (startWallet htrUid env payload) in
  (isHardwareWallet env = true →
     resolve env = false ∧ tally is_flag_query t = 0 ∧
     new_wallet false ∈ t ∧ no_ignore t ∧ ending_of env ≠ Fell_back) ∧
  (isHardwareWallet env = false →
     tally is_flag_query t = 1 ∧
     new_wallet (shouldUseWalletService (featureFlags env)) ∈ t ∧
     new_wallet (negb (shouldUseWalletService (featureFlags env))) ∉ t).
Proof.
  intros t.
  assert (tally is_flag_query (trace (start_tail htrUid env payload)) = 0) as Hq
    by (by apply tally_start_tail; intros [[]|[]| | | | | | | | | | | | |]).
  assert (∀ b, new_wallet b ∈ trace (start_tail htrUid env payload) → False) as Hn.
  { intros b Hin.
    assert (tally (λ e, bool_decide (e = new_wallet b))
                  (trace (start_tail htrUid env payload)) = 0) as Hz.
    { apply tally_start_tail. intros e He. apply bool_decide_eq_false.
      intros ->. done. }
    pose proof (proj1 (tally_none _ _) Hz _ Hin) as Hb.
    cbn beta in Hb. by apply bool_decide_eq_false in Hb. }
  assert (t = start_called env payload ++ trace (start_tail htrUid env payload))
    as Ht by (unfold t; by rewrite startWallet_run).
  split.
  - intros Hhw.
    assert (resolve env = false) as Hres by (unfold resolve; by rewrite Hhw).
    split_and!.
    + done.
    + rewrite Ht, tally_app, Hq. unfold start_called. by rewrite Hhw.
    + rewrite Ht, <- Hres. apply elem_of_app. left.
      unfold start_called. rewrite Hhw. clear. in_trace.
    + by apply local_attempt_no_ignore.
    + intros [Hr _]%ending_Fell_back. congruence.
  - intros Hsw.
    assert (resolve env = shouldUseWalletService (featureFlags env)) as Hres
      by (unfold resolve; by rewrite Hsw).
    split_and!.
    + rewrite Ht, tally_app, Hq. unfold start_called. by rewrite Hsw.
    + rewrite Ht, <- Hres. apply elem_of_app. left.
      unfold start_called. rewrite Hsw. clear. in_trace.
    + rewrite Ht, <- Hres. intros [Hin|Hin]%elem_of_app; [|by eapply Hn].
      unfold start_called in Hin. rewrite Hsw in Hin.
      destruct (resolve env); clear -Hin; revert Hin; in_trace.
Qed.

(** X9. The server information is published once, right after the start
    call, when that call returns: with the version and network of the
    answer, or, when the facade answers nothing, with no version and the
    configured network name.  When the start call raises, no server
    information is published at all. *)
Theorem X9_startWallet_server_info (env : StartEnv) (payload : StartPayload) :
  let t := trace (startWallet htrUid env payload) in
  (∀ info, start (facade env) = Some (Some info) →
     tally is_server_info t = 1 ∧
     ∃ rest, t = start_called env payload
                 ++ Put (setServerInfo (version info) (network info)) :: rest) ∧
  (start (facade env) = Some None →
     tally is_server_info t = 1 ∧
     ∃ rest, t = start_called env payload
                 ++ Put (setServerInfo JS.Undefined (network_name env)) :: rest) ∧
  (start (facade env) = None → tally is_server_info t = 0).
Proof.
  intros t.
  assert (tally is_server_info (start_called env payload) = 0) as Hc
    by (unfold start_called; by destruct (isHardwareWallet env)).
  assert (tally is_server_info (trace (load_phase htrUid env payload)) = 0) as Hl.
  { unfold load_phase.
    destruct (fetchTokenData env) as [[]|]; [|done].
    destruct (getTokens (facade env)) as [allTokens|]; [|done].
    unfold prefix, loaded. cbn [trace outcome fst snd].
    rewrite !tally_app, tally_puts by done.
    by destruct (parked_race env) as [[]|]. }
  assert (tally is_server_info (trace (ready_phase htrUid env payload)) = 0) as Hr.
  { unfold ready_phase, prefix, trace in *. cbn [fst snd].
    destruct (isReady (facade env)); [exact Hl|].
    destruct (readiness_race env) as [[]|]; [done|exact Hl|done]. }
  assert (t = start_called env payload ++ trace (start_tail htrUid env payload))
    as Ht by (unfold t; by rewrite startWallet_run).
  clearbody t. subst t. rewrite tally_app, Hc. unfold start_tail.
  destruct (routerHistory payload) as [[]|];
    unfold start_phase, unrouted_phase, prefix, trace in *; split_and!.
  - intros info ->. cbn [fst snd]. split; [|by eexists].
    cbn [app tally is_server_info]. by rewrite Hr.
  - intros ->. cbn [fst snd]. split; [|by eexists].
    cbn [app tally is_server_info]. by rewrite Hr.
  - intros ->. by destruct (resolve env).
  - intros info ->. cbn [fst snd]. split; [done|by eexists].
  - intros ->. cbn [fst snd]. split; [done|by eexists].
  - intros ->. by destruct (resolve env).
Qed.

End Starts.

Section Parked.

Variable htrUid : tokenId.

Lemma totals_zero_app (t1 t2 : list effect) :
  totals t1 = (0, 0, 0, 0) → totals t2 = (0, 0, 0, 0) →
  totals (t1 ++ t2) = (0, 0, 0, 0).
Proof. intros H1 H2. by rewrite totals_app, H1, H2. Qed.

(** X10. A start attempt whose request carries a router history and
    that neither falls back, nor fails the readiness wait, nor has its
    token loader raise, reports the load
    success, redirects to the wallet screen, lowers the loading flag and
    parks in a race between a new start request and a reload request,
    having cancelled, failed and re-dispatched nothing so far.  While
    neither request arrives it stays parked; a new start request makes it
    cancel the thread group and return; a reload request makes it cancel
    the thread group and then re-dispatch its own start request. *)
Theorem X10_startWallet_parked (env : StartEnv) (payload : StartPayload) :
  routerHistory payload = Some tt →
  ¬ falls_back env → readiness_passed env →
  ¬ loader_raises (fetchTokenData env) (facade env) →
  ∃ before allTokens,
    getTokens (facade env) = Some allTokens ∧
    totals before = (0, 0, 0, 0) ∧
    startWallet htrUid env payload
    = prefix (before
              ++ [Put (loadWalletSuccess allTokens);
                  routerHistory_replace "/wallet/";
                  Put (loadingAddresses false);
                  Race [START_WALLET_REQUESTED_type; RELOAD_WALLET_REQUESTED]])
        match parked_race env with
        | None => ([], Block)
        | Some false => ([Cancel_threads], Ret tt)
        | Some true =>
            ([Cancel_threads; Put (START_WALLET_REQUESTED payload)], Ret tt)
        end.
Proof.
  intros Hrh Hnf Hrp Hnl.
  destruct (getTokens (facade env)) as [allTokens|] eqn:Hg;
    [|exfalso; apply Hnl; by right].
  destruct (fetchTokenData env) as [[]|] eqn:Hf;
    [|exfalso; apply Hnl; by left].
  exists (start_called env payload
          ++ match start (facade env) with
             | Some (Some info) =>
                 [Put (setServerInfo (version info) (network info))]
             | Some None => [Put (setServerInfo JS.Undefined (network_name env))]
             | None => []
             end
          ++ [routerHistory_replace "/loading_addresses"]
          ++ (if isReady (facade env) then []
              else [Race [WALLET_STATE_READY; WALLET_STATE_ERROR]])
          ++ loaded htrUid (stored_tokens env) allTokens), allTokens.
  split_and!; [done| |].
  - apply totals_zero_app; [apply totals_start_called|].
    apply totals_zero_app; [by destruct (start (facade env)) as [[]|]|].
    apply totals_zero_app; [done|].
    apply totals_zero_app; [by destruct (isReady (facade env))|].
    apply totals_loaded.
  - rewrite startWallet_routed by done.
    unfold start_phase, ready_phase, load_phase, prefix. rewrite Hf, Hg.
    assert (start (facade env) = None → resolve env = false) as Hres.
    { intros Hs. destruct (resolve env) eqn:Hr; [|done].
      exfalso. by apply Hnf. }
    destruct (start (facade env)) as [[info|]|];
      [| |rewrite Hres by done];
      (destruct (isReady (facade env)) eqn:Hready;
       [|destruct (readiness_race env) as [[]|] eqn:Hrace;
         [destruct Hrp; congruence| |destruct Hrp; congruence]];
       destruct (parked_race env) as [[]|];
       cbn [fst snd trace outcome app]; rewrite <- ?app_assoc; reflexivity).
Qed.

End Parked.

(** ** Reload cycles *)

Section Reloads.

Variable htrUid : tokenId.

Lemma reload_ending_waiting (env : ReloadEnv) (st : AppState) :
  reload_ending_of env st = Reload_waiting ↔ ¬ reload_wait_passed env st.
Proof.
  unfold reload_ending_of, reload_wait_passed.
  destruct (JS.truthy (state_useWalletService st)),
    (reload_ready env) as [[]|], (reload_fetchTokenData env),
    (getTokens (state_wallet st)),
    (getNewAddresses (state_wallet st)) as [[]|],
    (state_routerHistory st); cbn; naive_solver.
Qed.

Lemma reload_ending_redirect (env : ReloadEnv) (st : AppState) :
  reload_ending_of env st = Reload_failed_redirect ↔
  reload_wait_passed env st ∧
  ¬ loader_raises (reload_fetchTokenData env) (state_wallet st) ∧
  (JS.truthy (state_useWalletService st) = true →
   getNewAddresses (state_wallet st) = Some tt) ∧
  state_routerHistory st = None.
Proof.
  unfold reload_ending_of, reload_wait_passed, loader_raises.
  destruct (JS.truthy (state_useWalletService st)),
    (reload_ready env) as [[]|], (reload_fetchTokenData env),
    (getTokens (state_wallet st)),
    (getNewAddresses (state_wallet st)) as [[]|],
    (state_routerHistory st); cbn; naive_solver.
Qed.

(** X11. A reload cycle never cancels the thread group and never
    re-dispatches a start request, whatever happens; it puts at most one
    Failed status and at most one load-success status.  It is suspended,
    with neither status put, exactly when it runs on the local facade and
    the ready message never arrives; otherwise it returns with at least
    one of the two statuses put: an exception of the token loader, of
    the address refresh or of the redirect never escapes it. *)
Theorem X11_walletReloading_contained (env : ReloadEnv) (st : AppState) :
  let run := walletReloading htrUid env st in
  tally is_cancel (trace run) = 0 ∧ tally is_restart (trace run) = 0 ∧
  tally is_failed (trace run) ≤ 1 ∧ tally is_success (trace run) ≤ 1 ∧
  ((outcome run = Ret tt ∧ reload_wait_passed env st ∧
    1 ≤ tally is_failed (trace run) + tally is_success (trace run)) ∨
   (outcome run = Block ∧ ¬ reload_wait_passed env st ∧
    tally is_failed (trace run) + tally is_success (trace run) = 0)).
Proof.
  intros run. subst run.
  pose proof (walletReloading_summary htrUid env st) as Hs.
  pose proof (reload_ending_waiting env st) as Hw.
  unfold summary, totals in Hs.
  destruct (reload_ending_of env st); cbn [reload_summary] in Hs;
    injection Hs as Hf Hsu Hc Hr Ho; rewrite Hf, Hsu, Hc, Hr, Ho;
    (split_and!; [done|done|lia|lia|]).
  - right. split_and!; [done| |done]. by apply Hw.
  - left. split_and!; [done| |lia].
    destruct (decide (reload_wait_passed env st)) as [|Hn]; [done|].
    apply Hw in Hn. done.
  - left. split_and!; [done| |lia].
    destruct (decide (reload_wait_passed env st)) as [|Hn]; [done|].
    apply Hw in Hn. done.
  - left. split_and!; [done| |lia].
    destruct (decide (reload_wait_passed env st)) as [|Hn]; [done|].
    apply Hw in Hn. done.
  - left. split_and!; [done| |lia].
    destruct (decide (reload_wait_passed env st)) as [|Hn]; [done|].
    apply Hw in Hn. done.
Qed.

(** X12. A reload cycle puts both the load-success status and the Failed
    status exactly when everything up to the load-success status went
    through and the store holds no router history for the redirect: the
    Failed status then comes right after the load-success status, as the
    last effect of the run. *)
Theorem X12_walletReloading_both_statuses (env : ReloadEnv) (st : AppState) :
  let run := walletReloading htrUid env st in
  let missing_redirect :=
    reload_wait_passed env st ∧
    ¬ loader_raises (reload_fetchTokenData env) (state_wallet st) ∧
    (JS.truthy (state_useWalletService st) = true →
     getNewAddresses (state_wallet st) = Some tt) ∧
    state_routerHistory st = None in
  (tally is_failed (trace run) = 1 ∧ tally is_success (trace run) = 1
   ↔ missing_redirect) ∧
  (missing_redirect →
   ∃ before allTokens,
     getTokens (state_wallet st) = Some allTokens ∧
     totals before = (0, 0, 0, 0) ∧
     run = (before ++ [Put (loadWalletSuccess allTokens); Put startWalletFailed],
            Ret tt)).
Proof.
  intros run missing_redirect. subst run missing_redirect. split.
  - rewrite <- reload_ending_redirect.
    pose proof (walletReloading_summary htrUid env st) as Hs.
    unfold summary, totals in Hs.
    destruct (reload_ending_of env st); cbn [reload_summary] in Hs;
      injection Hs as Hf Hsu _ _ _; rewrite Hf, Hsu; naive_solver.
  - intros (Hw & Hnl & Hna & Hrh).
    destruct (getTokens (state_wallet st)) as [allTokens|] eqn:Hg;
      [|exfalso; apply Hnl; by right].
    destruct (reload_fetchTokenData env) as [[]|] eqn:Hf;
      [|exfalso; apply Hnl; by left].
    pose proof (walletReloading_run htrUid env st) as Hrun. cbn zeta in Hrun.
    rewrite Hf, Hg, Hrh in Hrun.
    set (uws := JS.truthy (state_useWalletService st)) in *.
    exists (reload_invalidated htrUid (reload_stored_tokens env) allTokens uws
            ++ (if uws then [Call wallet_getNewAddresses_call] else [])
            ++ [Put walletRefreshSharedAddress]), allTokens.
    split_and!; [done| |].
    + apply totals_zero_app; [apply totals_reload_invalidated|].
      by destruct uws.
    + rewrite Hrun. unfold reload_wait_passed in Hw. fold uws in Hw.
      destruct uws eqn:Hu; cbn [negb andb].
      * rewrite Hna by done. rewrite bool_decide_eq_false_2 by done.
        unfold reload_refreshed. by rewrite <- !app_assoc.
      * destruct Hw as [|Hw]; [done|]. rewrite Hw.
        rewrite bool_decide_eq_false_2 by done.
        unfold reload_refreshed. by rewrite <- !app_assoc.
Qed.

End Reloads.

(** ** Token metadata *)

Lemma aggregate_snoc (responses : list action) (r : action) :
  aggregate (responses ++ [r]) = aggregate_step (aggregate responses) r.
Proof. unfold aggregate. by rewrite foldl_app. Qed.

(** X14. The aggregation loop of the metadata sub-task, over any list of
    responses: the failure list holds the token ids of the failure
    responses in the order of the responses, one entry per response; the
    success map holds, for each token id other than ["__proto__"], the
    data of the last success response for it that carries non-empty data,
    and nothing when there is none.  Failure responses never touch the
    map and success responses never touch the failure list. *)
Theorem X14_aggregate_loop (responses : list action) :
  (aggregate responses).2 = failed_ids responses ∧
  ∀ token, token ≠ "__proto__" →
    (aggregate responses).1 !! token = last (data_for token responses).
Proof.
  induction responses as [|r responses [IHe IHm]] using rev_ind; [done|].
  rewrite aggregate_snoc. unfold failed_ids, data_for in *.
  destruct (aggregate responses) as [tokenMetadatas errors].
  cbn [fst snd] in *. split.
  - rewrite omap_app. destruct r; cbn; rewrite ?app_nil_r; try done.
    + by destruct (JS.truthy _).
    + by rewrite IHe.
  - intros token Hp. rewrite omap_app. specialize (IHm token Hp).
    destruct r; cbn; rewrite ?app_nil_r; try done.
    unfold set_property.
    match goal with
    | |- context [decide (?t = token)] =>
        destruct (decide (t = token)) as [->|Hne]
    end; destruct (JS.truthy _) eqn:Hd; cbn; rewrite ?app_nil_r; try done.
    + rewrite (decide_False (P := token = "__proto__")) by done.
      by rewrite last_snoc, lookup_insert_eq.
    + case_decide; [done|]. by rewrite lookup_insert_ne.
Qed.

Lemma find_app_Some {A} (p : A → bool) (l1 l2 : list A) (x : A) :
  List.find p l1 = Some x → List.find p (l1 ++ l2) = Some x.
Proof.
  induction l1 as [|y l1 IH]; [done|]. cbn. by destruct (p y).
Qed.

Lemma take_responses_later (tokens : list tokenId) (dispatched later : list action)
    (responses : list action) :
  take_responses tokens dispatched = Some responses →
  take_responses tokens (dispatched ++ later) = Some responses.
Proof.
  unfold take_responses. rewrite !mapM_Some. intros Hall.
  eapply Forall2_impl; [exact Hall|]. intros t r. apply find_app_Some.
Qed.

Lemma metadata_requests_run (tokens : list tokenId) (dispatched : list action) :
  metadata_requests (trace (fetchTokensMetadata tokens dispatched)) = tokens.
Proof.
  destruct tokens as [|t tokens]; [done|].
  rewrite fetchTokensMetadata_run by done. unfold metadata_requests.
  assert (∀ l : list tokenId,
            omap (λ a, match a with
                       | TOKEN_FETCH_METADATA_REQUESTED t => Some t
                       | _ => None
                       end) (TOKEN_FETCH_METADATA_REQUESTED <$> l) = l) as Hreq.
  { induction l as [|t' l IH]; [done|]. cbn. by rewrite IH. }
  destruct (take_responses (t :: tokens) dispatched); cbn [trace fst];
    change (Put (metadataLoaded false) :: ?l)
      with ([Put (metadataLoaded false)] ++ l);
    rewrite !puts_app, list_fmap_compose, puts_Put, !omap_app, Hreq;
    cbn; by rewrite app_nil_r.
Qed.

(** X15. Over a non-empty token list the metadata sub-task first puts
    "metadata loaded: false" and then one metadata request per entry of
    the list, in order, whether or not any of them is ever answered; it
    never puts "metadata loaded: true".  Once every token has its answer,
    whatever is dispatched later changes nothing to the run. *)
Theorem X15_metadata_requests (tokens : list tokenId)
    (dispatched later : list action) :
  tokens ≠ [] →
  let run := fetchTokensMetadata tokens dispatched in
  head (trace run) = Some (Put (metadataLoaded false)) ∧
  metadata_requests (trace run) = tokens ∧
  (Put (metadataLoaded true) ∉ trace run) ∧
  (is_Some (take_responses tokens dispatched) →
   fetchTokensMetadata tokens (dispatched ++ later) = run).
Proof.
  intros Hne run. subst run. split_and!.
  - rewrite fetchTokensMetadata_run by done.
    by destruct (take_responses tokens dispatched).
  - apply metadata_requests_run.
  - rewrite fetchTokensMetadata_run by done.
    destruct (take_responses tokens dispatched); cbn [trace fst];
      rewrite elem_of_cons, elem_of_app, list_elem_of_fmap;
      intros [?|[(t & ? & _)|Hin]]; try done;
      revert Hin; rewrite ?elem_of_cons, elem_of_nil; naive_solver.
  - intros [responses Hr]. rewrite !fetchTokensMetadata_run by done.
    by rewrite (take_responses_later _ _ _ _ Hr), Hr.
Qed.

(** X21. The metadata task [loadTokens] spawns never asks for the
    metadata of the base-currency token.  When no token other than the
    base-currency one is stored it only puts "metadata loaded: true" and
    returns; otherwise it asks for the metadata of every stored token but
    the base-currency one, in the stored order. *)
Theorem X21_spawned_metadata_task (htrUid : tokenId) (stored : list Token)
    (dispatched : list action) :
  let run := fetchTokensMetadata (registered_uids htrUid stored) dispatched in
  (htrUid ∉ metadata_requests (trace run)) ∧
  metadata_requests (trace run) = filter (λ u, u ≠ htrUid) (uid <$> stored) ∧
  (Forall (λ token, uid token = htrUid) stored →
   run = ([Put (metadataLoaded true)], Ret tt)) ∧
  (¬ Forall (λ token, uid token = htrUid) stored →
   head (trace run) = Some (Put (metadataLoaded false)) ∧
   Put (metadataLoaded true) ∉ trace run).
Proof.
  intros run. subst run. rewrite metadata_requests_run.
  rewrite registered_uids_filter. split_and!.
  - rewrite list_elem_of_filter. by intros [? _].
  - done.
  - intros Hall.
    assert (filter (λ u, u ≠ htrUid) (uid <$> stored) = []) as ->; [|done].
    induction Hall as [|token stored Htoken _ IH]; [done|].
    cbn [fmap list_fmap]. rewrite filter_cons, decide_False by (by intros ?).
    exact IH.
  - intros Hnot.
    assert (filter (λ u, u ≠ htrUid) (uid <$> stored) ≠ []) as Hne.
    { intros Hnil. apply Hnot. apply Forall_forall. intros token Hin.
      destruct (decide (uid token = htrUid)) as [|Hu]; [done|].
      assert (uid token ∈ filter (λ u, u ≠ htrUid) (uid <$> stored)) as Hf.
      { apply list_elem_of_filter. split; [done|].
        apply list_elem_of_fmap. by exists token. }
      rewrite Hnil in Hf. by apply elem_of_nil in Hf. }
    rewrite fetchTokensMetadata_run by done. split.
    + by destruct (take_responses _ dispatched).
    + destruct (take_responses _ dispatched); cbn [trace fst];
        rewrite elem_of_cons, elem_of_app, list_elem_of_fmap;
        intros [?|[(t & ? & _)|Hin]]; try done;
        revert Hin; rewrite ?elem_of_cons, elem_of_nil; naive_solver.
Qed.

(** ** The event bridge and the root saga *)

(** X16. The event bridge puts one action per event the channel delivers,
    in the order of delivery, carrying the type of the event's callback and
    the callback's argument unchanged (nothing for a reload-data event);
    it yields nothing else and never ends by itself.  Two different events
    are never bridged into the same action. *)
Theorem X16_setupWalletListeners_bridge (events : list facade_event) :
  let run := setupWalletListeners (emitted <$> events) in
  run = (Put ∘ bridge <$> events, Block) ∧
  puts (trace run) = bridge <$> events ∧
  length (trace run) = length events ∧
  (∀ more, ∃ rest,
     trace (setupWalletListeners (emitted <$> events ++ more))
     = trace run ++ rest) ∧
  Inj (=) (=) bridge.
Proof.
  intros run.
  assert (∀ evs, setupWalletListeners (emitted <$> evs)
                 = (Put ∘ bridge <$> evs, Block)) as Hrun.
  { intros evs. unfold setupWalletListeners. rewrite for_of_put.
    cbn. rewrite app_nil_r. f_equal. by rewrite <- list_fmap_compose. }
  subst run. rewrite Hrun. cbn [trace fst]. split_and!.
  - done.
  - by rewrite list_fmap_compose, puts_Put.
  - by rewrite length_fmap.
  - intros more. exists (Put ∘ bridge <$> more).
    by rewrite Hrun, fmap_app.
  - intros [] []; cbn; intros [=]; by subst.
Qed.

(** X17. Whatever type the actions module gives the start request, as
    long as it is none of the types the root saga writes out: a start
    request wakes the start handler alone, no pattern is watched twice, and
    every action the event bridge puts wakes exactly one watcher, namely
    the one of the handler meant for its event: transaction events go to
    [handleTx] and reload-data events to [walletReloading], each event in
    its own run, and connection-state events to
    [onWalletConnStateUpdate], the latest event superseding the others. *)
Theorem X17_root_saga_routing (START_WALLET_REQUESTED : string) :
  START_WALLET_REQUESTED ∉ literal_patterns →
  NoDup ((λ r, r.1.2) <$> root_saga START_WALLET_REQUESTED) ∧
  woken START_WALLET_REQUESTED START_WALLET_REQUESTED
  = [(takeLatest, startWallet_handler)] ∧
  ∀ ev, woken START_WALLET_REQUESTED (message_type (emitted ev))
        = [handler_of ev].
Proof.
  intros Hs. unfold literal_patterns in Hs.
  rewrite !not_elem_of_cons in Hs.
  destruct Hs as (H1 & H2 & H3 & H4 & H5 & H6 & H7 & H8 & _).
  split_and!.
  - cbn. apply NoDup_cons. split.
    + rewrite !not_elem_of_cons. split_and!; try done. apply not_elem_of_nil.
    + apply (bool_decide_unpack _). by vm_compute.
  - unfold woken, root_saga. cbn [omap list_omap].
    rewrite decide_True by done. by repeat case_decide.
  - intros ev. unfold woken, root_saga.
    destruct ev; cbn [omap list_omap emitted message_type];
      rewrite decide_False by done; reflexivity.
Qed.

Section Connection.

Variable htrUid : tokenId.
Variable Connection_CONNECTED : JS.value.

Lemma online_updates_app (t1 t2 : list effect) :
  online_updates (t1 ++ t2) = online_updates t1 ++ online_updates t2.
Proof. unfold online_updates. by rewrite puts_app, omap_app. Qed.

Lemma online_updates_none (t : list effect) :
  tally is_online_update t = 0 → online_updates t = [].
Proof.
  unfold online_updates, puts. induction t as [|e t IH]; [done|].
  cbn [tally]. destruct e as [[]| | | | | | | | | | | | | |]; cbn; try done;
    intros; apply IH; lia.
Qed.

(** X18. [onWalletConnStateUpdate] puts a single connection update and
    returns; the update says online exactly when the state it is handed is
    strictly equal to the connected state.  A start attempt puts one
    connection update, always offline, however it goes on, and a reload
    cycle puts none: neither ever marks the wallet online. *)
Theorem X18_online_updates (env : StartEnv) (payload : StartPayload)
    (renv : ReloadEnv) (st : AppState) (state : JS.value) :
  online_updates (trace (startWallet htrUid env payload)) = [false] ∧
  online_updates (trace (walletReloading htrUid renv st)) = [] ∧
  outcome (onWalletConnStateUpdate Connection_CONNECTED state) = Ret tt ∧
  puts (trace (onWalletConnStateUpdate Connection_CONNECTED state))
  = [isOnlineUpdate (bool_decide (state = Connection_CONNECTED))] ∧
  (online_updates (trace (onWalletConnStateUpdate Connection_CONNECTED state))
   = [true] ↔ state = Connection_CONNECTED).
Proof.
  split_and!.
  - assert (trace (startWallet htrUid env payload)
            = start_called env payload ++ trace (start_tail htrUid env payload))
      as -> by by rewrite startWallet_run.
    rewrite online_updates_app.
    rewrite (online_updates_none (trace (start_tail htrUid env payload))).
    + unfold start_called. by destruct (isHardwareWallet env).
    + by apply tally_start_tail; intros [[]|[]| | | | | | | | | | | | |].
  - apply online_updates_none.
    pose proof (walletReloading_run htrUid renv st) as Hrun. cbn zeta in Hrun.
    rewrite Hrun. clear Hrun.
    unfold reload_invalidated, reload_waited, reload_refreshed, loaded.
    destruct (JS.truthy (state_useWalletService st)),
      (reload_ready renv) as [[]|], (reload_fetchTokenData renv) as [[]|],
      (getTokens (state_wallet st)),
      (getNewAddresses (state_wallet st)) as [[]|],
      (state_routerHistory st); cbn [negb andb bool_decide trace fst];
      rewrite ?bool_decide_eq_true_2, ?bool_decide_eq_false_2 by done;
      cbn [trace fst]; rewrite ?tally_app, ?tally_puts by done; done.
  - done.
  - done.
  - unfold onWalletConnStateUpdate, JS.strict_eq. cbn.
    case_bool_decide; naive_solver.
Qed.

End Connection.

(** ** Shared address and affected tokens *)

Section Address.

Variable isBlock : Tx → bool.

(** X19. [refreshSharedAddress] publishes the facade's current address
    and index whether or not the facade is ready.  On a ready facade the
    puts of [handleTx] are that same update followed by the refetch
    requests; on a facade that is not ready [handleTx] publishes no
    address at all. *)
Theorem X19_refreshSharedAddress (st : AppState) (tx : Tx) :
  let refresh := refreshSharedAddress st in
  let current := getCurrentAddress (state_wallet st) in
  refresh = ([Put (sharedAddressUpdate (address current) (index current))], Ret tt) ∧
  (isReady (state_wallet st) = true →
   ∃ requests,
     puts (trace (handleTx isBlock st tx)) = puts (trace refresh) ++ requests ∧
     Forall (λ a, ∀ addr idx, a ≠ sharedAddressUpdate addr idx) requests) ∧
  (isReady (state_wallet st) = false →
   puts (trace (handleTx isBlock st tx)) = [] ∧ puts (trace refresh) ≠ []).
Proof.
  intros refresh current. split_and!.
  - done.
  - intros Hready. rewrite handleTx_run by done.
    exists (filter (λ t, t ∈ uid <$> state_tokens st) (affectedTokens tx)
            ≫= refetch).
    split.
    + cbn [trace fst].
      change (sendNotification ?m :: ?l) with ([sendNotification m] ++ l).
      by rewrite puts_app, puts_Put.
    + apply Forall_forall. intros a (t & Ha & _)%list_elem_of_bind.
      unfold refetch in Ha. rewrite !elem_of_cons, elem_of_nil in Ha.
      destruct_or!; by subst.
  - intros Hready. unfold handleTx. by rewrite Hready.
Qed.

Lemma foldl_Set_add {A B} `{EqDecision A} (f : B → A) (l : list B) :
  foldl (λ s x, JS.Set_add s (f x)) [] l = first_occurrences (f <$> l).
Proof.
  unfold first_occurrences.
  induction l as [|x l IH] using rev_ind; [done|].
  rewrite foldl_app, fmap_app, reverse_app. cbn [foldl fmap list_fmap app].
  rewrite reverse_singleton. cbn [app remove_dups]. rewrite IH.
  unfold JS.Set_add, decide_rel.
  destruct (list_elem_of_dec (f x) (reverse (f <$> l))) as [Hin|Hnin].
  - rewrite decide_True; [done|].
    by rewrite elem_of_reverse, elem_of_remove_dups.
  - rewrite decide_False, reverse_cons; [done|].
    by rewrite elem_of_reverse, elem_of_remove_dups.
Qed.

(** X20. The tokens affected by a transaction are the tokens of its
    outputs followed by those of its inputs, each kept at its first
    occurrence: this is the order in which [handleTx] asks for their
    balance and history. *)
Theorem X20_affectedTokens_order (tx : Tx) :
  affectedTokens tx = first_occurrences (token <$> outputs tx ++ inputs tx).
Proof.
  unfold affectedTokens. rewrite <- foldl_Set_add. by rewrite foldl_app.
Qed.

End Address.

(** * Further instances on sample inputs *)

(** X2 on a facade listing the base-currency token, X and Y, with X
    stored. *)
Lemma X2_witness :
  getTokens ready_wallet = Some [HTR; "X"; "Y"] ∧
  balance_requests (trace (loadTokens HTR (Some tt) ready_wallet [token_X]))
  = [(HTR, None); ("X", None); ("Y", None)] ∧
  tally is_spawn (trace (loadTokens HTR (Some tt) ready_wallet [token_X])) = 1.
Proof.
  destruct (X2_loadTokens_requests HTR (Some tt) ready_wallet [token_X]
              [HTR; "X"; "Y"] eq_refl eq_refl) as (_ & _ & _ & Hb & Hs).
  split_and!; [reflexivity|exact Hb|exact Hs].
Defined.

(** X3 on a facade whose token query raises. *)
Lemma X3_witness :
  loader_raises (Some tt) tokenless_wallet ∧
  outcome (loadTokens HTR (Some tt) tokenless_wallet [token_X]) = Throw ∧
  puts (trace (loadTokens HTR (Some tt) tokenless_wallet [token_X])) = [].
Proof.
  assert (loader_raises (Some tt) tokenless_wallet) as Hr by (by right).
  destruct (X3_loadTokens_failure HTR (Some tt) tokenless_wallet [token_X] Hr)
    as (Ho & Hp & _).
  split_and!; [exact Hr|exact Ho|exact Hp].
Defined.

(** X5 on a hardware wallet that is reloaded after a successful load. *)
Lemma X5_witness :
  tally is_restart (trace (startWallet HTR hardware_env sample_payload)) = 1 ∧
  tally is_success (trace (startWallet HTR hardware_env sample_payload)) = 1 ∧
  parked_race hardware_env = Some true.
Proof.
  destruct (X5_startWallet_one_verdict HTR hardware_env sample_payload)
    as (_ & _ & Hre & _).
  assert (tally is_restart (trace (startWallet HTR hardware_env sample_payload)) = 1)
    as Hr by reflexivity.
  destruct (Hre Hr) as [[Hfb _]|[Hs Hp]]; [discriminate Hfb|].
  split_and!; [exact Hr|exact Hs|exact Hp].
Defined.

(** X8 on a hardware wallet and on a software wallet with the remote
    service enabled. *)
Lemma X8_witness :
  isHardwareWallet hardware_env = true ∧
  tally is_flag_query (trace (startWallet HTR hardware_env sample_payload)) = 0 ∧
  new_wallet false ∈ trace (startWallet HTR hardware_env sample_payload) ∧
  isHardwareWallet remote_env = false ∧
  tally is_flag_query (trace (startWallet HTR remote_env sample_payload)) = 1 ∧
  new_wallet true ∈ trace (startWallet HTR remote_env sample_payload).
Proof.
  destruct (X8_startWallet_backend_choice HTR hardware_env sample_payload)
    as [Hhw _].
  destruct (X8_startWallet_backend_choice HTR remote_env sample_payload)
    as [_ Hsw].
  destruct (Hhw eq_refl) as (_ & Hq0 & Hlocal & _).
  destruct (Hsw eq_refl) as (Hq1 & Hremote & _).
  split_and!; [reflexivity|exact Hq0|exact Hlocal|reflexivity|exact Hq1|
               exact Hremote].
Defined.

(** X9 on a facade that answers its start call with server information. *)
Lemma X9_witness :
  start (facade hardware_env)
  = Some (Some {| version := JS.Str "0.40.1"; network := JS.Str "testnet" |}) ∧
  tally is_server_info (trace (startWallet HTR hardware_env sample_payload)) = 1 ∧
  Put (setServerInfo (JS.Str "0.40.1") (JS.Str "testnet"))
    ∈ trace (startWallet HTR hardware_env sample_payload).
Proof.
  destruct (X9_startWallet_server_info HTR hardware_env sample_payload)
    as (Hinfo & _ & _).
  destruct (Hinfo _ eq_refl) as (Hone & rest & Hrun).
  split_and!; [reflexivity|exact Hone|].
  rewrite Hrun. apply elem_of_app. right. apply elem_of_cons. by left.
Defined.

(** X10 on a hardware wallet that is reloaded after a successful load. *)
Lemma X10_witness :
  routerHistory sample_payload = Some tt ∧
  ¬ falls_back hardware_env ∧
  readiness_passed hardware_env ∧
  ¬ loader_raises (fetchTokenData hardware_env) (facade hardware_env) ∧
  ∃ before,
    totals before = (0, 0, 0, 0) ∧
    startWallet HTR hardware_env sample_payload
    = (before
       ++ [Put (loadWalletSuccess [HTR; "X"; "Y"]);
           routerHistory_replace "/wallet/"; Put (loadingAddresses false);
           Race [START_WALLET_REQUESTED_type; RELOAD_WALLET_REQUESTED];
           Cancel_threads; Put (START_WALLET_REQUESTED sample_payload)],
       Ret tt).
Proof.
  assert (¬ falls_back hardware_env) as Hnf.
  { intros [Hres _]. discriminate Hres. }
  assert (readiness_passed hardware_env) as Hrp by (by left).
  assert (¬ loader_raises (fetchTokenData hardware_env) (facade hardware_env))
    as Hnl.
  { intros [Hf|Hg]; [discriminate Hf|discriminate Hg]. }
  destruct (X10_startWallet_parked HTR hardware_env sample_payload eq_refl
              Hnf Hrp Hnl)
    as (before & allTokens & Hg & Ht & Hrun).
  injection Hg as <-.
  split_and!; [reflexivity|exact Hnf|exact Hrp|exact Hnl|].
  exists before. split; [exact Ht|].
  rewrite Hrun. unfold prefix. cbn [parked_race hardware_env trace outcome fst snd].
  by rewrite <- app_assoc.
Defined.

(** X12 on a reload whose state holds no router history. *)
Lemma X12_witness :
  state_routerHistory unrouted_state = None ∧
  tally is_failed (trace (walletReloading HTR sample_reload unrouted_state)) = 1 ∧
  tally is_success (trace (walletReloading HTR sample_reload unrouted_state)) = 1 ∧
  last (trace (walletReloading HTR sample_reload unrouted_state))
  = Some (Put startWalletFailed).
Proof.
  destruct (X12_walletReloading_both_statuses HTR sample_reload unrouted_state)
    as [Hiff Hshape].
  assert (reload_wait_passed sample_reload unrouted_state ∧
          ¬ loader_raises (reload_fetchTokenData sample_reload)
                          (state_wallet unrouted_state) ∧
          (JS.truthy (state_useWalletService unrouted_state) = true →
           getNewAddresses (state_wallet unrouted_state) = Some tt) ∧
          state_routerHistory unrouted_state = None) as Hm.
  { split_and!; [by left| |done|done].
    intros [Hf|Hg]; [discriminate Hf|discriminate Hg]. }
  destruct (proj2 Hiff Hm) as [Hf Hs].
  destruct (Hshape Hm) as (before & allTokens & _ & _ & Hrun).
  split_and!; [reflexivity|exact Hf|exact Hs|].
  rewrite Hrun. cbn [trace fst].
  change [Put (loadWalletSuccess allTokens); Put startWalletFailed]
    with ([Put (loadWalletSuccess allTokens)] ++ [Put startWalletFailed]).
  by rewrite app_assoc, last_snoc.
Defined.

(** X14 on the sample responses: the map holds the data of A. *)
Lemma X14_witness :
  "A" ≠ "__proto__" ∧
  (aggregate sample_responses).1 !! "A" = Some (JS.Obj 7).
Proof.
  assert ("A" ≠ "__proto__") as Hp by discriminate.
  split; [exact Hp|].
  exact (proj2 (X14_aggregate_loop sample_responses) "A" Hp).
Defined.

(** X15 on tokens A, B, C with the sample responses: a later success for
    the failed token C changes nothing. *)
Lemma X15_witness :
  metadata_requests (trace (fetchTokensMetadata ["A"; "B"; "C"] sample_responses))
  = ["A"; "B"; "C"] ∧
  fetchTokensMetadata ["A"; "B"; "C"]
    (sample_responses ++ [TOKEN_FETCH_METADATA_SUCCESS "C" (JS.Obj 9)])
  = fetchTokensMetadata ["A"; "B"; "C"] sample_responses.
Proof.
  assert (["A"; "B"; "C"] ≠ ([] : list tokenId)) as Hne by discriminate.
  destruct (X15_metadata_requests ["A"; "B"; "C"] sample_responses
              [TOKEN_FETCH_METADATA_SUCCESS "C" (JS.Obj 9)] Hne)
    as (_ & Hreq & _ & Hlater).
  split; [exact Hreq|]. apply Hlater. vm_compute. by eexists.
Defined.

(** X17 with the start request typed ["START_WALLET_REQUESTED"]. *)
Lemma X17_witness :
  ("START_WALLET_REQUESTED" ∉ literal_patterns) ∧
  woken "START_WALLET_REQUESTED" "WALLET_NEW_TX" = [(takeEvery, handleTx_handler)] ∧
  woken "START_WALLET_REQUESTED" "WALLET_RELOAD_DATA"
  = [(takeEvery, walletReloading_handler)].
Proof.
  assert ("START_WALLET_REQUESTED" ∉ literal_patterns) as Hs.
  { apply (bool_decide_unpack _). vm_compute. exact I. }
  destruct (X17_root_saga_routing "START_WALLET_REQUESTED" Hs) as (_ & _ & Hev).
  split_and!; [exact Hs| |].
  - exact (Hev (wallet_new_tx JS.Undefined)).
  - exact (Hev wallet_reload_data).
Defined.

(** X19 on a ready facade and the sample transaction. *)
Lemma X19_witness :
  isReady (state_wallet sample_state) = true ∧
  ∃ requests,
    puts (trace (handleTx (λ _, false) sample_state sample_tx))
    = puts (trace (refreshSharedAddress sample_state)) ++ requests.
Proof.
  destruct (X19_refreshSharedAddress (λ _, false) sample_state sample_tx)
    as (_ & Hready & _).
  destruct (Hready eq_refl) as (requests & Hputs & _).
  split; [reflexivity|]. by exists requests.
Defined.

(** X21 with only the base-currency token stored. *)
Lemma X21_witness :
  Forall (λ token, uid token = HTR)
         [{| uid := HTR; name := "Hathor"; symbol := "HTR" |}] ∧
  fetchTokensMetadata
    (registered_uids HTR [{| uid := HTR; name := "Hathor"; symbol := "HTR" |}]) []
  = ([Put (metadataLoaded true)], Ret tt).
Proof.
  assert (Forall (λ token, uid token = HTR)
                 [{| uid := HTR; name := "Hathor"; symbol := "HTR" |}]) as Hall
    by (by repeat constructor).
  destruct (X21_spawned_metadata_task HTR
              [{| uid := HTR; name := "Hathor"; symbol := "HTR" |}] [])
    as (_ & _ & Hbase & _).
  split; [exact Hall|exact (Hbase Hall)].
Defined.
